(** * Vizier: comparison testers and scalarizing designer

  A shallow embedding of
    - [vizier/_src/algorithms/testing/comparator_runner.py]
      ([EfficiencyComparisonTester], [SimpleRegretComparisonTester]), and
    - the behaviour of [scalarizing_designer] exercised by
      [vizier/_src/algorithms/designers/scalarizing_designer_test.py].

  Python [float]s are IEEE binary64 values (Rocq's primitive [float]),
  Python [int]s are [Z], [dict]s with string keys are [gmap string _].
  Calls into collaborators (benchmark states, runners, optimizers, the
  statistics helper) may raise and may change the outside world: they are
  threaded through a state-and-exception monad whose state also records a
  trace of the calls that were made. *)

From Stdlib Require Import ZArith List Floats QArith Qabs Qminmax.
From stdpp Require Import base option strings gmap list pretty.

Set Warnings "-inexact-float".

Local Open Scope Z_scope.

(** ** Python floats *)

Module PyFloat.

(** [a <= b] and [a < b] on Python floats; both are [False] as soon as an
    operand is NaN. *)
Definition le (a b : float) : bool := PrimFloat.leb a b.
Definition lt (a b : float) : bool := PrimFloat.ltb a b.

(** [math.isnan] / [jnp.isnan]. *)
Definition isnan (a : float) : bool := PrimFloat.is_nan a.

Lemma SFcompare_swap (x y : spec_float) :
  SFcompare y x = option_map CompOpp (SFcompare x y).
Proof.
  destruct x as [sx|sx| |sx mx ex], y as [sy|sy| |sy my ey]; simpl;
    try reflexivity;
    try (destruct sx; reflexivity);
    try (destruct sy; reflexivity);
    try (destruct sx, sy; reflexivity).
  destruct sx, sy; simpl; try reflexivity;
    rewrite (Z.compare_antisym ey ex);
    destruct (ey ?= ex)%Z; simpl; try reflexivity;
    change (Pos.compare_cont Eq mx my) with (Pos.compare mx my);
    change (Pos.compare_cont Eq my mx) with (Pos.compare my mx);
    rewrite (Pos.compare_antisym my mx);
    destruct (my ?= mx)%positive; reflexivity.
Qed.

(** [b < a] excludes [a <= b]. *)
Lemma lt_not_le (a b : float) : lt b a = true -> le a b = false.
Proof.
  unfold lt, le. rewrite FloatAxioms.ltb_spec, FloatAxioms.leb_spec.
  unfold SFltb, SFleb.
  rewrite (SFcompare_swap (Prim2SF b) (Prim2SF a)).
  destruct (SFcompare (Prim2SF b) (Prim2SF a)) as [[]|]; simpl; congruence.
Qed.

(** When [a <= b] is false, either [b < a] or one of the two is NaN. *)
Lemma not_le_inv (a b : float) :
  le a b = false -> lt b a = true \/ isnan a = true \/ isnan b = true.
Proof.
  unfold lt, le, isnan, PrimFloat.is_nan.
  rewrite FloatAxioms.ltb_spec, FloatAxioms.leb_spec, !FloatAxioms.eqb_spec.
  unfold SFltb, SFleb, SFeqb.
  rewrite (SFcompare_swap (Prim2SF b) (Prim2SF a)).
  destruct (Prim2SF a) as [sa|sa| |sa ma ea] eqn:Ea;
    destruct (Prim2SF b) as [sb|sb| |sb mb eb] eqn:Eb; simpl;
    try (right; left; reflexivity); try (right; right; reflexivity);
    try (destruct sa; simpl; intros; (discriminate || (left; reflexivity)));
    try (destruct sb; simpl; intros; (discriminate || (left; reflexivity))).
  - destruct sa, sb; simpl; intros; (discriminate || (left; reflexivity)).
  - destruct sa, sb; simpl;
      try (intros; (discriminate || (left; reflexivity)));
      destruct (eb ?= ea)%Z; simpl;
      try (intros; (discriminate || (left; reflexivity)));
      destruct (Pos.compare_cont Eq mb ma); simpl;
      intros; (discriminate || (left; reflexivity)).
Qed.

(** No comparison with NaN is true. *)
Lemma nan_not_le_r (a b : float) : isnan b = true -> le a b = false.
Proof.
  unfold le, isnan, PrimFloat.is_nan.
  rewrite FloatAxioms.leb_spec, FloatAxioms.eqb_spec. unfold SFleb, SFeqb.
  destruct (Prim2SF b) as [sb|sb| |sb mb eb]; simpl.
  - discriminate.
  - destruct sb; discriminate.
  - intros _. destruct (Prim2SF a) as [sa|sa| |sa ma ea]; reflexivity.
  - destruct sb; rewrite Z.compare_refl, Pos.compare_cont_refl; discriminate.
Qed.

End PyFloat.

(** ** Exceptions and the effect monad *)

(** The exceptions the modelled code raises itself, and [OtherError] for
  whatever a collaborator raises. *)
Inductive exn : Type :=
| ValueError (msg : string)
| ZeroDivisionError
| IndexError
| KeyError (key : string)
| AttributeError
| DimensionMismatch
| FailedComparisonTestError (msg : string)
| FailedSimpleRegretConvergenceTestError (msg : string)
| OtherError (what : string).

Inductive result (A : Type) : Type :=
| Ok (a : A)
| Raise (e : exn).
Arguments Ok {A} a.
Arguments Raise {A} e.

Module Eff.
Section Eff.
(** [W] is the state of the outside world, [Ev] the type of recorded
    events. *)
Context {W Ev : Type}.

Record state : Type := State { world : W; trace : list Ev }.

Definition M (A : Type) : Type := state -> result A * state.

Definition ret {A} (a : A) : M A := fun s => (Ok a, s).

Definition bind {A B} (m : M A) (k : A -> M B) : M B :=
  fun s => match m s with
           | (Ok a, s') => k a s'
           | (Raise e, s') => (Raise e, s')
           end.

Definition raise {A} (e : exn) : M A := fun s => (Raise e, s).

(** A call into a collaborator: it acts on the world only. *)
Definition ext {A} (f : W -> result A * W) : M A :=
  fun s => let (r, w) := f (world s) in (r, State w (trace s)).

(** Record an event at the end of the trace. *)
Definition emit (e : Ev) : M unit :=
  fun s => (Ok tt, State (world s) (trace s ++ [e])).

Definition lift {A} (r : result A) : M A := fun s => (r, s).

(** [for _ in range(n): acc = body(acc)], with [n] already a [nat]. *)
Fixpoint iterate {A} (n : nat) (body : A -> M A) (acc : A) : M A :=
  match n with
  | O => ret acc
  | S n' => bind (body acc) (iterate n' body)
  end.

(** Python's [range(n)] runs [max 0 n] times. *)
Definition for_range {A} (n : Z) (body : A -> M A) (acc : A) : M A :=
  iterate (Z.to_nat n) body acc.

Lemma bind_ok {A B} (m : M A) (k : A -> M B) s a s' :
  m s = (Ok a, s') -> bind m k s = k a s'.
Proof. unfold bind. intros ->. reflexivity. Qed.

Lemma bind_raise {A B} (m : M A) (k : A -> M B) s e s' :
  m s = (Raise e, s') -> bind m k s = (Raise e, s').
Proof. unfold bind. intros ->. reflexivity. Qed.

Lemma iterate_S {A} n (body : A -> M A) acc :
  iterate (S n) body acc = bind (body acc) (iterate n body).
Proof. reflexivity. Qed.

(** A loop whose every pass succeeds and records exactly one event [ev]
    runs to its end and records [n] of them; an invariant of the
    accumulator is carried along. *)
Lemma iterate_emits {A} (Q : nat -> A -> Prop) (body : A -> M A) (ev : Ev) :
  (forall k acc s, Q k acc ->
     exists acc' s', body acc s = (Ok acc', s')
                     /\ trace s' = trace s ++ [ev] /\ Q (S k) acc') ->
  forall n k acc s, Q k acc ->
    exists acc' s', iterate n body acc s = (Ok acc', s')
                    /\ trace s' = trace s ++ replicate n ev
                    /\ Q (n + k)%nat acc'.
Proof.
  intros Hbody n. induction n as [|n IH]; intros k acc s HQ.
  - exists acc, s. simpl. rewrite app_nil_r. auto.
  - destruct (Hbody k acc s HQ) as (acc1 & s1 & Hb & Ht & HQ1).
    destruct (IH (S k) acc1 s1 HQ1) as (acc2 & s2 & Hi & Ht2 & HQ2).
    exists acc2, s2. rewrite iterate_S, (bind_ok _ _ _ _ _ Hb).
    split; [exact Hi |]. split.
    + rewrite Ht2, Ht, <- app_assoc. reflexivity.
    + replace (S n + k)%nat with (n + S k)%nat by lia. exact HQ2.
Qed.

End Eff.
Arguments state : clear implicits.
Arguments M : clear implicits.
End Eff.

#[global] Instance eff_ret {W Ev} : MRet (Eff.M W Ev) := fun A => Eff.ret.
#[global] Instance eff_bind {W Ev} : MBind (Eff.M W Ev) :=
  fun A B k m => Eff.bind m k.

(** ** Message building *)

(** [contains s sub]: [sub] occurs in [s]. *)
Definition contains (s sub : string) : Prop :=
  exists pre post, s = pre +:+ sub +:+ post.

Lemma string_app_assoc (a b c : string) : (a +:+ b) +:+ c = a +:+ (b +:+ c).
Proof.
  induction a as [|x a IH]; [reflexivity |].
  change (String x ((a +:+ b) +:+ c) = String x (a +:+ (b +:+ c))).
  now f_equal.
Qed.

Lemma string_app_nil_r (a : string) : a +:+ "" = a.
Proof.
  induction a as [|x a IH]; [reflexivity |].
  change (String x (a +:+ "") = String x a). now f_equal.
Qed.

Lemma contains_here (sub post : string) : contains (sub +:+ post) sub.
Proof. exists "", post. reflexivity. Qed.

Lemma contains_app_r (pre s sub : string) :
  contains s sub -> contains (pre +:+ s) sub.
Proof.
  intros (p & q & ->). exists (pre +:+ p), q.
  symmetry. apply string_app_assoc.
Qed.

Lemma contains_refl (s : string) : contains s s.
Proof. exists "", "". simpl. symmetry. apply string_app_nil_r. Qed.

(** The newline of the Python literals. *)
Definition nl : string := String (Ascii.ascii_of_nat 10) "".

(** ** pyvizier data *)

Module vz.

Record Metric : Type := { value : float }.

(** [metrics] is the mapping from metric name to metric. *)
Record Measurement : Type := { metrics : gmap string Metric }.

Record Trial : Type := {
  id : Z;
  final_measurement : option Measurement
}.

Inductive ObjectiveMetricGoal : Type := MAXIMIZE | MINIMIZE.

Record MetricInformation : Type := {
  name : string;
  goal : ObjectiveMetricGoal
}.

#[global] Instance goal_eq_dec : EqDecision ObjectiveMetricGoal.
Proof. solve_decision. Defined.

#[global] Instance metric_information_eq_dec : EqDecision MetricInformation.
Proof. solve_decision. Defined.

(** A problem statement: a search space and the ordered metric
    declarations. *)
Record ProblemStatement (SearchSpace : Type) : Type := {
  search_space : SearchSpace;
  metric_information : list MetricInformation
}.
Arguments search_space {SearchSpace} _.
Arguments metric_information {SearchSpace} _.

#[global] Instance problem_statement_eq_dec
  `{EqDecision SearchSpace} : EqDecision (ProblemStatement SearchSpace).
Proof. solve_decision. Defined.

End vz.

(** [trials[0]]. *)
Definition first_trial (trials : list vz.Trial) : result vz.Trial :=
  match trials with
  | [] => Raise IndexError
  | t :: _ => Ok t
  end.

(** [trial.final_measurement.metrics[key].value]; a trial without final
    measurement has [None] there. *)
Definition trial_metric (key : string) (t : vz.Trial) : result float :=
  match vz.final_measurement t with
  | None => Raise AttributeError
  | Some m =>
      match vz.metrics m !! key with
      | None => Raise (KeyError key)
      | Some metric => Ok (vz.value metric)
      end
  end.

(** [trial[0].final_measurement.metrics[key].value] on the list of trials a
    collaborator returned. *)
Definition first_trial_metric (key : string) (trial : list vz.Trial)
  : result float :=
  match first_trial trial with
  | Ok t => trial_metric key t
  | Raise e => Raise e
  end.

(** [a // b] on Python ints: floor division, raising on a zero divisor. *)
Definition floordiv (a b : Z) : result Z :=
  if decide (b = 0) then Raise ZeroDivisionError else Ok (a `div` b).

(** ** Collaborators of the testers

  Everything [comparator_runner.py] imports from [vizier.benchmarks],
  [vectorized_base], [simple_regret_score], [numpy] and the string
  conversions of Python values. Each call takes the world and gives back a
  result or an exception together with the new world. *)

Inductive Subroutine : Type :=
| GenerateAndEvaluate (batch_size : option Z).
(* [None] is the parameterless [GenerateAndEvaluate()]. *)

Record BenchmarkRunner : Type := {
  benchmark_subroutines : list Subroutine;
  runner_num_repeats : Z
}.

Class Collaborators : Type := {
  World : Type;
  SearchSpace : Type;
  SearchSpace_eq_dec :: EqDecision SearchSpace;
  BenchmarkState : Type;
  BenchmarkStateFactory : Type;
  ConvergenceCurve : Type;
  ConvergenceCurveComparator : Type;
  VectorizedOptimizer : Type;
  TrialToArrayConverter : Type;
  BatchArrayScoreFunction : Type;

  (** [factory()] *)
  call_factory : BenchmarkStateFactory -> World -> result BenchmarkState * World;
  (** [state.experimenter.problem_statement()], an accessor *)
  problem_statement : BenchmarkState -> vz.ProblemStatement SearchSpace;
  (** one subroutine of a runner applied to a state *)
  subroutine_run : Subroutine -> BenchmarkState -> World -> result unit * World;
  (** [state.algorithm.supporter.GetTrials()] *)
  GetTrials : BenchmarkState -> World -> result (list vz.Trial) * World;
  (** [state.algorithm.supporter.GetBestTrials(count=...)] *)
  GetBestTrials : BenchmarkState -> Z -> World -> result (list vz.Trial) * World;
  (** [metric_information.item()] *)
  item : list vz.MetricInformation -> result vz.MetricInformation;
  (** [problem_statement.single_objective_metric_name] *)
  single_objective_metric_name :
    vz.ProblemStatement SearchSpace -> result string;
  (** [ConvergenceCurveConverter(metric).convert(trials)] *)
  convert : vz.MetricInformation -> list vz.Trial ->
          World -> result ConvergenceCurve * World;
  (** [ConvergenceCurve.align_xs(curves)] *)
  align_xs : list ConvergenceCurve -> World -> result ConvergenceCurve * World;
  (** [ConvergenceCurveComparator(baseline_curve)] *)
  new_comparator : ConvergenceCurve -> World -> result ConvergenceCurveComparator * World;
  (** [comparator.get_log_efficiency_score(candidate_curve)] *)
  get_log_efficiency_score :
    ConvergenceCurveComparator -> ConvergenceCurve -> World -> result float * World;
  (** [optimizer.optimize(converter, score_fn, count=..., max_evaluations=...)] *)
  optimize : VectorizedOptimizer -> TrialToArrayConverter ->
           BatchArrayScoreFunction -> Z -> Z ->
           World -> result (list vz.Trial) * World;
  (** [simple_regret_score.t_test_less_mean_score(baseline, candidate)] *)
  t_test_less_mean_score :
    list float -> list float -> World -> result float * World;
  (** [np.mean], [np.std] *)
  np_mean : list float -> float;
  np_std : list float -> float;
  (** [str(x)] of a float, of the elements of a printed list, of a factory
      and of a problem statement *)
  str_float : float -> string;
  repr_float : float -> string;
  str_factory : BenchmarkStateFactory -> string;
  str_statement : vz.ProblemStatement SearchSpace -> string
}.

(** [str] of a list of floats: [[a, b, c]]. *)
Fixpoint join (sep : string) (l : list string) : string :=
  match l with
  | [] => ""
  | [x] => x
  | x :: rest => x +:+ sep +:+ join sep rest
  end.

Definition str_list `{Collaborators} (l : list float) : string :=
  "[" +:+ join ", " (map repr_float l) +:+ "]".

(** [str] of a Python int. *)
Definition str_int (n : Z) : string := pretty n.

Section Testers.
Context `{Collaborators}.

(** What the trace records. *)
Inductive event : Type :=
| EvFactory (f : BenchmarkStateFactory)
| EvRun (r : BenchmarkRunner) (st : BenchmarkState)
| EvSubroutine (sub : Subroutine) (st : BenchmarkState)
| EvOptimize (o : VectorizedOptimizer) (max_evaluations : Z)
| EvTTest (baseline candidate : list float)
| EvLogInfo (msg : string).

Abbreviation M := (Eff.M World event).
Abbreviation state := (Eff.state World event).

Definition call (f : BenchmarkStateFactory) : M BenchmarkState :=
  Eff.emit (EvFactory f);; Eff.ext (call_factory f).

Definition logging_info (msg : string) : M unit := Eff.emit (EvLogInfo msg).

(** Modelled from the spec: one cycle of [BenchmarkRunner.run] of
    [vizier.benchmarks], which is not among the sources; a cycle runs the
    runner's subroutines in order. *)
Fixpoint run_subroutines (subs : list Subroutine) (st : BenchmarkState)
  : M unit :=
  match subs with
  | [] => mret tt
  | sub :: rest =>
      Eff.emit (EvSubroutine sub st);;
      Eff.ext (subroutine_run sub st);;
      run_subroutines rest st
  end.

(** Modelled from the spec: [BenchmarkRunner.run] of [vizier.benchmarks],
    which is not among the sources: "driving [num_repeats]
    generate-and-evaluate cycles of a given batch size against the
    state". *)
Definition run (runner : BenchmarkRunner) (st : BenchmarkState) : M unit :=
  Eff.emit (EvRun runner st);;
  Eff.for_range (runner_num_repeats runner)
    (fun _ => run_subroutines (benchmark_subroutines runner) st) tt.

(** ** [EfficiencyComparisonTester] *)

Record EfficiencyComparisonTester : Type := {
  num_trials : Z;
  num_repeats : Z
}.

(** The generated constructor: both fields default to 1 and are validated
    with [instance_of(int)], which every [int] passes; it takes nothing
    else. *)
Definition EfficiencyComparisonTester_init (num_trials num_repeats : option Z)
  : result EfficiencyComparisonTester :=
  Ok {| num_trials := default 1 num_trials;
        num_repeats := default 1 num_repeats |}.

Definition multimetric_msg : string := "Support for multimetric is not yet".

Definition different_statements_msg
  (baseline_statement candidate_statement : vz.ProblemStatement SearchSpace)
  : string :=
  "Comparison tests done for different statements: "
  +:+ str_statement baseline_statement +:+ " vs "
  +:+ str_statement candidate_statement.

(** One pass of the loop of [assert_better_efficiency] (lines 71-93); the
    two curve lists are the loop's accumulators. *)
Definition efficiency_repeat
  (runner : BenchmarkRunner)
  (candidate_state_factory baseline_state_factory : BenchmarkStateFactory)
  (curves : list ConvergenceCurve * list ConvergenceCurve)
  : M (list ConvergenceCurve * list ConvergenceCurve) :=
  let '(baseline_curves, candidate_curves) := curves in
  baseline_state ← call baseline_state_factory;
  candidate_state ← call candidate_state_factory;
  let baseline_statement := problem_statement baseline_state in
  if bool_decide (1 < length (vz.metric_information baseline_statement))%nat
  then Eff.raise (ValueError multimetric_msg)
  else
    let candidate_statement := problem_statement candidate_state in
    if bool_decide (baseline_statement ≠ candidate_statement)
    then Eff.raise (ValueError
           (different_statements_msg baseline_statement candidate_statement))
    else
      run runner baseline_state;;
      run runner candidate_state;;
      metric ← Eff.lift (item (vz.metric_information baseline_statement));
      trials ← Eff.ext (GetTrials baseline_state);
      baseline_curve ← Eff.ext (convert metric trials);
      metric' ← Eff.lift (item (vz.metric_information baseline_statement));
      trials' ← Eff.ext (GetTrials candidate_state);
      candidate_curve ← Eff.ext (convert metric' trials');
      mret (baseline_curves ++ [baseline_curve],
            candidate_curves ++ [candidate_curve]).

Definition efficiency_runner (self : EfficiencyComparisonTester)
  : BenchmarkRunner :=
  {| benchmark_subroutines := [GenerateAndEvaluate None];
     runner_num_repeats := num_trials self |}.

(** Lines 65-100: everything up to the log-efficiency score. *)
Definition log_efficiency_score_of_runs
  (self : EfficiencyComparisonTester)
  (candidate_state_factory baseline_state_factory : BenchmarkStateFactory)
  : M float :=
  let runner := efficiency_runner self in
  curves ← Eff.for_range (num_repeats self)
             (efficiency_repeat runner candidate_state_factory
                                baseline_state_factory) ([], []);
  baseline_curve ← Eff.ext (align_xs (fst curves));
  candidate_curve ← Eff.ext (align_xs (snd curves));
  comparator ← Eff.ext (new_comparator baseline_curve);
  Eff.ext (get_log_efficiency_score comparator candidate_curve).

Definition failed_comparison_msg
  (self : EfficiencyComparisonTester)
  (log_eff_score score_threshold : float)
  (candidate_state_factory baseline_state_factory : BenchmarkStateFactory)
  : string :=
  "Log efficiency score " +:+ str_float log_eff_score
  +:+ " is less than " +:+ str_float score_threshold
  +:+ " when comparing algorithms: " +:+ str_factory candidate_state_factory
  +:+ " vs baseline of " +:+ str_factory baseline_state_factory
  +:+ " for " +:+ str_int (num_trials self)
  +:+ "  Trials with " +:+ str_int (num_repeats self) +:+ " repeats".

Definition assert_better_efficiency
  (self : EfficiencyComparisonTester)
  (candidate_state_factory baseline_state_factory : BenchmarkStateFactory)
  (score_threshold : float)
  : M unit :=
  log_eff_score ← log_efficiency_score_of_runs self candidate_state_factory
                    baseline_state_factory;
  if PyFloat.lt log_eff_score score_threshold
  then Eff.raise (FailedComparisonTestError
         (failed_comparison_msg self log_eff_score score_threshold
            candidate_state_factory baseline_state_factory))
  else mret tt.

(** The default [score_threshold=0.0]. *)
Definition default_score_threshold : float := 0%float.

(** ** [SimpleRegretComparisonTester] *)

Record SimpleRegretComparisonTester : Type := {
  baseline_num_trials : Z;
  candidate_num_trials : Z;
  baseline_num_repeats : Z;
  candidate_num_repeats : Z;
  alpha : float
}.

Definition default_alpha : float := 0.05%float.

(** The two validators of [alpha], [ge(0)] then [le(0.1)]: each raises
    [ValueError] when its comparison is not true. *)
Definition validate_alpha (alpha : float) : result unit :=
  if negb (PyFloat.le 0%float alpha)
  then Raise (ValueError ("'alpha' must be >= 0: " +:+ str_float alpha))
  else if negb (PyFloat.le alpha 0.1%float)
  then Raise (ValueError ("'alpha' must be <= 0.1: " +:+ str_float alpha))
  else Ok tt.

(** The generated constructor. The four counts carry no validator;
    [alpha] is optional and validated, given or not. *)
Definition SimpleRegretComparisonTester_init
  (baseline_num_trials candidate_num_trials : Z)
  (baseline_num_repeats candidate_num_repeats : Z)
  (alpha : option float)
  : result SimpleRegretComparisonTester :=
  let alpha := default default_alpha alpha in
  match validate_alpha alpha with
  | Raise e => Raise e
  | Ok _ =>
      Ok {| baseline_num_trials := baseline_num_trials;
            candidate_num_trials := candidate_num_trials;
            baseline_num_repeats := baseline_num_repeats;
            candidate_num_repeats := candidate_num_repeats;
            alpha := alpha |}
  end.

Definition _generate_summary
  (self : SimpleRegretComparisonTester)
  (baseline_simple_regrets candidate_simple_regrets : list float)
  (p_value : float) : string :=
  let baseline_mean := np_mean baseline_simple_regrets in
  let baseline_std := np_std baseline_simple_regrets in
  let candidate_mean := np_mean candidate_simple_regrets in
  let candidate_std := np_std candidate_simple_regrets in
  "P-value=" +:+ str_float p_value
  +:+ ". Alpha=" +:+ str_float (alpha self) +:+ "."
  +:+ nl +:+ "Baseline Simple Regret Mean: " +:+ str_float baseline_mean +:+ "."
  +:+ nl +:+ "Baseline Simple Regret Std: " +:+ str_float baseline_std +:+ "."
  +:+ nl +:+ "Candidate Simple Regret Mean: " +:+ str_float candidate_mean +:+ "."
  +:+ nl +:+ "Candidate Simple Regret Std: " +:+ str_float candidate_std +:+ "."
  +:+ nl +:+ "Baseline Simple Regret Scores: " +:+ str_list baseline_simple_regrets
  +:+ nl +:+ "Candidate Simple Regret Scores: " +:+ str_list candidate_simple_regrets.

Definition passed_msg (msg : string) : string :=
  "Convergence test PASSED:" +:+ nl +:+ " " +:+ msg.

Definition t_test (baseline candidate : list float) : M float :=
  Eff.emit (EvTTest baseline candidate);;
  Eff.ext (t_test_less_mean_score baseline candidate).

(** One pass of either loop of [assert_optimizer_better_simple_regret]
    (lines 145-152 and 154-161). *)
Definition optimizer_repeat
  (converter : TrialToArrayConverter) (score_fn : BatchArrayScoreFunction)
  (optimizer : VectorizedOptimizer) (max_evaluations : Z)
  (simple_regrets : list float) : M (list float) :=
  Eff.emit (EvOptimize optimizer max_evaluations);;
  trial ← Eff.ext (optimize optimizer converter score_fn 1 max_evaluations);
  simple_regret ← Eff.lift (first_trial_metric "acquisition" trial);
  mret (simple_regrets ++ [simple_regret]).

(** Lines 142-161: the two sample lists. *)
Definition optimizer_simple_regrets
  (self : SimpleRegretComparisonTester)
  (converter : TrialToArrayConverter) (score_fn : BatchArrayScoreFunction)
  (baseline_optimizer candidate_optimizer : VectorizedOptimizer)
  : M (list float * list float) :=
  baseline_simple_regrets ←
    Eff.for_range (baseline_num_repeats self)
      (optimizer_repeat converter score_fn baseline_optimizer
         (baseline_num_trials self)) [];
  candidate_simple_regrets ←
    Eff.for_range (candidate_num_repeats self)
      (optimizer_repeat converter score_fn candidate_optimizer
         (candidate_num_trials self)) [];
  mret (baseline_simple_regrets, candidate_simple_regrets).

Definition assert_optimizer_better_simple_regret
  (self : SimpleRegretComparisonTester)
  (converter : TrialToArrayConverter) (score_fn : BatchArrayScoreFunction)
  (baseline_optimizer candidate_optimizer : VectorizedOptimizer)
  : M unit :=
  samples ← optimizer_simple_regrets self converter score_fn
              baseline_optimizer candidate_optimizer;
  let '(baseline_simple_regrets, candidate_simple_regrets) := samples in
  p_value ← t_test baseline_simple_regrets candidate_simple_regrets;
  let msg := _generate_summary self baseline_simple_regrets
               candidate_simple_regrets p_value in
  if PyFloat.le p_value (alpha self)
  then logging_info (passed_msg msg)
  else Eff.raise (FailedSimpleRegretConvergenceTestError msg).

(** The inner function of [assert_benchmark_state_better_simple_regret]. *)
Definition _run_one
  (benchmark_state_factory : BenchmarkStateFactory)
  (num_trials batch_size : Z) : M float :=
  benchmark_state ← call benchmark_state_factory;
  cycles ← Eff.lift (floordiv num_trials batch_size);
  let baseline_runner :=
    {| benchmark_subroutines := [GenerateAndEvaluate (Some batch_size)];
       runner_num_repeats := cycles |} in
  run baseline_runner benchmark_state;;
  best_trials ← Eff.ext (GetBestTrials benchmark_state 1);
  best_trial ← Eff.lift (first_trial best_trials);
  metric_name ← Eff.lift (single_objective_metric_name
                             (problem_statement benchmark_state));
  Eff.lift (trial_metric metric_name best_trial).

Definition benchmark_repeat
  (benchmark_state_factory : BenchmarkStateFactory)
  (num_trials batch_size : Z)
  (simple_regrets : list float) : M (list float) :=
  simple_regret ← _run_one benchmark_state_factory num_trials batch_size;
  mret (simple_regrets ++ [simple_regret]).

(** Lines 198-208: the two sample lists. *)
Definition benchmark_simple_regrets
  (self : SimpleRegretComparisonTester)
  (baseline_benchmark_state_factory
   candidate_benchmark_state_factory : BenchmarkStateFactory)
  (baseline_batch_size candidate_batch_size : Z)
  : M (list float * list float) :=
  baseline_simple_regrets ←
    Eff.for_range (baseline_num_repeats self)
      (benchmark_repeat baseline_benchmark_state_factory
         (baseline_num_trials self) baseline_batch_size) [];
  candidate_simple_regrets ←
    Eff.for_range (candidate_num_repeats self)
      (benchmark_repeat candidate_benchmark_state_factory
         (candidate_num_trials self) candidate_batch_size) [];
  mret (baseline_simple_regrets, candidate_simple_regrets).

Definition assert_benchmark_state_better_simple_regret
  (self : SimpleRegretComparisonTester)
  (baseline_benchmark_state_factory
   candidate_benchmark_state_factory : BenchmarkStateFactory)
  (baseline_batch_size candidate_batch_size : Z)
  : M unit :=
  samples ← benchmark_simple_regrets self baseline_benchmark_state_factory
              candidate_benchmark_state_factory
              baseline_batch_size candidate_batch_size;
  let '(baseline_simple_regrets, candidate_simple_regrets) := samples in
  p_value ← t_test baseline_simple_regrets candidate_simple_regrets;
  let msg := _generate_summary self baseline_simple_regrets
               candidate_simple_regrets p_value in
  if PyFloat.le p_value (alpha self)
  then logging_info (passed_msg msg)
  else Eff.raise (FailedSimpleRegretConvergenceTestError msg).

(** The default batch sizes. *)
Definition default_batch_size : Z := 1.

(** ** Properties of the efficiency tester *)

Ltac eff_unfold := unfold mbind, eff_bind, mret, eff_ret in *.

Ltac solve_contains :=
  solve [ repeat first [ apply contains_refl
                       | apply contains_here
                       | apply contains_app_r ] ].

Lemma failed_comparison_msg_carries self score thr cf bf :
  contains (failed_comparison_msg self score thr cf bf) (str_float score)
  /\ contains (failed_comparison_msg self score thr cf bf) (str_float thr)
  /\ contains (failed_comparison_msg self score thr cf bf) (str_factory cf)
  /\ contains (failed_comparison_msg self score thr cf bf) (str_factory bf).
Proof. unfold failed_comparison_msg. repeat split; solve_contains. Qed.

(** C2. Once the runs have produced a log-efficiency score,
    [assert_better_efficiency] raises [FailedComparisonTestError] when the
    score is below [score_threshold], with a message that carries the score
    and the descriptions of both factories; otherwise it returns normally,
    with the unit value only. *)
Theorem assert_better_efficiency_verdict
  (self : EfficiencyComparisonTester)
  (candidate_state_factory baseline_state_factory : BenchmarkStateFactory)
  (score_threshold log_eff_score : float) (s s1 : state) :
  log_efficiency_score_of_runs self candidate_state_factory
    baseline_state_factory s = (Ok log_eff_score, s1) ->
  let msg := failed_comparison_msg self log_eff_score score_threshold
               candidate_state_factory baseline_state_factory in
  (PyFloat.lt log_eff_score score_threshold = true ->
     assert_better_efficiency self candidate_state_factory
       baseline_state_factory score_threshold s
     = (Raise (FailedComparisonTestError msg), s1)
     /\ contains msg (str_float log_eff_score)
     /\ contains msg (str_factory candidate_state_factory)
     /\ contains msg (str_factory baseline_state_factory))
  /\ (PyFloat.lt log_eff_score score_threshold = false ->
       assert_better_efficiency self candidate_state_factory
         baseline_state_factory score_threshold s
       = (Ok tt, s1)).
Proof.
  intros Hscore msg. unfold assert_better_efficiency. eff_unfold.
  rewrite (Eff.bind_ok _ _ _ _ _ Hscore).
  split; intros Hlt; rewrite Hlt.
  - split; [reflexivity |].
    destruct (failed_comparison_msg_carries self log_eff_score score_threshold
                candidate_state_factory baseline_state_factory)
      as (Hs & _ & Hc & Hb).
    auto.
  - reflexivity.
Qed.

Lemma call_ok (f : BenchmarkStateFactory) (s : state) st w :
  call_factory f (Eff.world s) = (Ok st, w) ->
  call f s = (Ok st, Eff.State w (Eff.trace s ++ [EvFactory f])).
Proof.
  intros Hf. unfold call. eff_unfold.
  unfold Eff.bind, Eff.emit, Eff.ext. simpl. rewrite Hf. reflexivity.
Qed.

Lemma for_range_first_raises {A} (n : Z) (body : A -> M A) acc s e s' :
  1 <= n -> body acc s = (Raise e, s') ->
  Eff.for_range n body acc s = (Raise e, s').
Proof.
  intros Hn Hbody. unfold Eff.for_range.
  destruct (Z.to_nat n) as [|k] eqn:Hk; [lia |].
  rewrite Eff.iterate_S. apply Eff.bind_raise. exact Hbody.
Qed.

(** A repeat whose first pass raises makes the whole assertion raise the
    same exception in the same state. *)
Lemma assert_better_efficiency_first_repeat_raises
  self cf bf thr (s s' : state) e :
  1 <= num_repeats self ->
  efficiency_repeat (efficiency_runner self) cf bf ([], []) s = (Raise e, s') ->
  assert_better_efficiency self cf bf thr s = (Raise e, s').
Proof.
  intros Hn Hbody.
  unfold assert_better_efficiency, log_efficiency_score_of_runs. eff_unfold.
  apply Eff.bind_raise. apply Eff.bind_raise.
  apply for_range_first_raises; assumption.
Qed.

(** The two guards of a repeat, once both factories have answered. *)
Lemma efficiency_repeat_guards runner cf bf curves (s : state) bst w1 cst w2 :
  call_factory bf (Eff.world s) = (Ok bst, w1) ->
  call_factory cf w1 = (Ok cst, w2) ->
  let s2 := Eff.State w2 (Eff.trace s ++ [EvFactory bf; EvFactory cf]) in
  ((1 < length (vz.metric_information (problem_statement bst)))%nat ->
   efficiency_repeat runner cf bf curves s
   = (Raise (ValueError multimetric_msg), s2))
  /\ (¬ (1 < length (vz.metric_information (problem_statement bst)))%nat ->
      problem_statement bst ≠ problem_statement cst ->
      efficiency_repeat runner cf bf curves s
      = (Raise (ValueError (different_statements_msg
                              (problem_statement bst) (problem_statement cst))),
         s2)).
Proof.
  intros Hb Hc s2. unfold efficiency_repeat. destruct curves as [bcs ccs].
  eff_unfold.
  rewrite (Eff.bind_ok _ _ _ _ _ (call_ok bf s bst w1 Hb)).
  assert (Hc' : call cf (Eff.State w1 (Eff.trace s ++ [EvFactory bf]))
                = (Ok cst, s2)).
  { rewrite (call_ok cf _ cst w2) by exact Hc. unfold s2. simpl.
    rewrite <- app_assoc. reflexivity. }
  rewrite (Eff.bind_ok _ _ _ _ _ Hc').
  split.
  - intros Hlen. rewrite bool_decide_eq_true_2 by exact Hlen. reflexivity.
  - intros Hlen Hne. rewrite bool_decide_eq_false_2 by exact Hlen.
    rewrite bool_decide_eq_true_2 by exact Hne. reflexivity.
Qed.

(** C5. In any repeat of [assert_better_efficiency] in which the baseline's
    or the candidate's problem statement declares more than one metric, the
    repeat raises [ValueError] right after the two factory calls, before the
    runner runs either state; with at least one repeat requested, a first
    repeat of that kind makes the whole call raise. When it is the baseline
    that is multi-metric the message is the multimetric one. *)
Theorem multimetric_fails_fast
  (self : EfficiencyComparisonTester)
  (candidate_state_factory baseline_state_factory : BenchmarkStateFactory)
  (score_threshold : float)
  (curves : list ConvergenceCurve * list ConvergenceCurve)
  (s : state) (baseline_state candidate_state : BenchmarkState)
  (w1 w2 : World) :
  call_factory baseline_state_factory (Eff.world s) = (Ok baseline_state, w1) ->
  call_factory candidate_state_factory w1 = (Ok candidate_state, w2) ->
  (1 < length (vz.metric_information (problem_statement baseline_state))
   \/ 1 < length (vz.metric_information (problem_statement candidate_state)))%nat ->
  let s2 := Eff.State w2 (Eff.trace s ++ [EvFactory baseline_state_factory;
                                          EvFactory candidate_state_factory]) in
  exists msg,
    efficiency_repeat (efficiency_runner self) candidate_state_factory
      baseline_state_factory curves s = (Raise (ValueError msg), s2)
    /\ (1 <= num_repeats self ->
        assert_better_efficiency self candidate_state_factory
          baseline_state_factory score_threshold s
        = (Raise (ValueError msg), s2))
    /\ ((1 < length (vz.metric_information (problem_statement baseline_state)))%nat ->
        msg = multimetric_msg).
Proof.
  intros Hb Hc Hmulti s2.
  destruct (efficiency_repeat_guards (efficiency_runner self)
              candidate_state_factory baseline_state_factory curves
              s _ _ _ _ Hb Hc) as [Hfirst Hsecond].
  destruct (efficiency_repeat_guards (efficiency_runner self)
              candidate_state_factory baseline_state_factory ([], [])
              s _ _ _ _ Hb Hc) as [Hfirst0 Hsecond0].
  destruct (decide (1 < length (vz.metric_information
                                  (problem_statement baseline_state)))%nat)
    as [Hlen | Hlen].
  - exists multimetric_msg. split; [exact (Hfirst Hlen) |]. split; [| reflexivity].
    intros Hn. apply assert_better_efficiency_first_repeat_raises; auto.
  - assert (Hne : problem_statement baseline_state
                  ≠ problem_statement candidate_state).
    { intros Heq. rewrite Heq in Hlen. destruct Hmulti as [Hm | Hm].
      - rewrite Heq in Hm. contradiction.
      - contradiction. }
    eexists. split; [exact (Hsecond Hlen Hne) |]. split; [| contradiction].
    intros Hn. apply assert_better_efficiency_first_repeat_raises; auto.
Qed.

(** C3 (as the code has it). The constructor takes the two counts only and
    succeeds; the problem statements are compared inside
    [assert_better_efficiency]. In any repeat in which the two statements
    differ, the repeat raises [ValueError] right after one call to each
    factory, before the runner runs either state; with at least one repeat
    requested, differing statements in the first repeat make the whole call
    raise, no benchmark run having been made and no factory called twice. *)
Theorem different_statements_raise_before_runs
  (self : EfficiencyComparisonTester)
  (candidate_state_factory baseline_state_factory : BenchmarkStateFactory)
  (score_threshold : float)
  (curves : list ConvergenceCurve * list ConvergenceCurve)
  (s : state) (baseline_state candidate_state : BenchmarkState)
  (w1 w2 : World) :
  call_factory baseline_state_factory (Eff.world s) = (Ok baseline_state, w1) ->
  call_factory candidate_state_factory w1 = (Ok candidate_state, w2) ->
  problem_statement baseline_state ≠ problem_statement candidate_state ->
  let s2 := Eff.State w2 (Eff.trace s ++ [EvFactory baseline_state_factory;
                                          EvFactory candidate_state_factory]) in
  EfficiencyComparisonTester_init (Some (num_trials self))
    (Some (num_repeats self)) = Ok self
  /\ exists msg,
      efficiency_repeat (efficiency_runner self) candidate_state_factory
        baseline_state_factory curves s = (Raise (ValueError msg), s2)
      /\ (1 <= num_repeats self ->
          assert_better_efficiency self candidate_state_factory
            baseline_state_factory score_threshold s
          = (Raise (ValueError msg), s2))
      /\ (¬ (1 < length (vz.metric_information
                            (problem_statement baseline_state)))%nat ->
          msg = different_statements_msg (problem_statement baseline_state)
                  (problem_statement candidate_state)).
Proof.
  intros Hb Hc Hne s2. split.
  { destruct self; reflexivity. }
  destruct (efficiency_repeat_guards (efficiency_runner self)
              candidate_state_factory baseline_state_factory curves
              s _ _ _ _ Hb Hc) as [Hfirst Hsecond].
  destruct (efficiency_repeat_guards (efficiency_runner self)
              candidate_state_factory baseline_state_factory ([], [])
              s _ _ _ _ Hb Hc) as [Hfirst0 Hsecond0].
  destruct (decide (1 < length (vz.metric_information
                                  (problem_statement baseline_state)))%nat)
    as [Hlen | Hlen].
  - exists multimetric_msg. split; [exact (Hfirst Hlen) |].
    split; [| contradiction].
    intros Hn. apply assert_better_efficiency_first_repeat_raises; auto.
  - eexists. split; [exact (Hsecond Hlen Hne) |]. split; [| reflexivity].
    intros Hn. apply assert_better_efficiency_first_repeat_raises; auto.
Qed.

(** ** Properties of the simple-regret tester *)

Lemma t_test_ok (b c : list float) (s1 : state) p w2 :
  t_test_less_mean_score b c (Eff.world s1) = (Ok p, w2) ->
  t_test b c s1 = (Ok p, Eff.State w2 (Eff.trace s1 ++ [EvTTest b c])).
Proof.
  intros Ht. unfold t_test. eff_unfold.
  unfold Eff.bind, Eff.emit, Eff.ext. simpl. rewrite Ht. reflexivity.
Qed.

(** What both entry points do with the two sample lists (lines 163-172 and
    210-218 are the same statements). *)
Definition verdict_of_samples (self : SimpleRegretComparisonTester)
  (samples : list float * list float) : M unit :=
  let '(baseline_simple_regrets, candidate_simple_regrets) := samples in
  p_value ← t_test baseline_simple_regrets candidate_simple_regrets;
  let msg := _generate_summary self baseline_simple_regrets
               candidate_simple_regrets p_value in
  if PyFloat.le p_value (alpha self)
  then logging_info (passed_msg msg)
  else Eff.raise (FailedSimpleRegretConvergenceTestError msg).

Lemma assert_optimizer_better_simple_regret_eq self conv score_fn bo co :
  assert_optimizer_better_simple_regret self conv score_fn bo co
  = Eff.bind (optimizer_simple_regrets self conv score_fn bo co)
             (verdict_of_samples self).
Proof. reflexivity. Qed.

Lemma assert_benchmark_state_better_simple_regret_eq self bf cf bb cb :
  assert_benchmark_state_better_simple_regret self bf cf bb cb
  = Eff.bind (benchmark_simple_regrets self bf cf bb cb)
             (verdict_of_samples self).
Proof. reflexivity. Qed.

(** The outcome of a run [m] of the tester that has collected the samples
    [b] and [c] in state [s1] and obtained the p-value [p], the statistics
    helper leaving the world [w2]: success with a logged PASSED summary when
    [p <= alpha], the failure exception carrying the summary when
    [p > alpha] (and whenever [p <= alpha] is not true). *)
Definition regret_test_outcome (self : SimpleRegretComparisonTester)
  (m : M unit) (s s1 : state) (b c : list float) (p : float) (w2 : World)
  : Prop :=
  let msg := _generate_summary self b c p in
  (PyFloat.le p (alpha self) = true ->
   m s = (Ok tt, Eff.State w2 (Eff.trace s1 ++ [EvTTest b c;
                                                EvLogInfo (passed_msg msg)])))
  /\ (PyFloat.lt (alpha self) p = true ->
      m s = (Raise (FailedSimpleRegretConvergenceTestError msg),
             Eff.State w2 (Eff.trace s1 ++ [EvTTest b c])))
  /\ (PyFloat.le p (alpha self) = false ->
      m s = (Raise (FailedSimpleRegretConvergenceTestError msg),
             Eff.State w2 (Eff.trace s1 ++ [EvTTest b c]))).






Lemma verdict_of_samples_outcome self (m : M (list float * list float))
  (s s1 : state) b c p w2 :
  m s = (Ok (b, c), s1) ->
  t_test_less_mean_score b c (Eff.world s1) = (Ok p, w2) ->
  regret_test_outcome self (Eff.bind m (verdict_of_samples self)) s s1 b c p w2.
Proof.
  intros Hm Ht.
  assert (Hraise : PyFloat.le p (alpha self) = false ->
    Eff.bind m (verdict_of_samples self) s
    = (Raise (FailedSimpleRegretConvergenceTestError
                (_generate_summary self b c p)),
       Eff.State w2 (Eff.trace s1 ++ [EvTTest b c]))).
  { intros Hle. rewrite (Eff.bind_ok _ _ _ _ _ Hm).
    unfold verdict_of_samples. eff_unfold.
    rewrite (Eff.bind_ok _ _ _ _ _ (t_test_ok b c s1 p w2 Ht)).
    rewrite Hle. reflexivity. }
  unfold regret_test_outcome. cbv zeta. repeat split.
  - intros Hle. rewrite (Eff.bind_ok _ _ _ _ _ Hm).
    unfold verdict_of_samples. eff_unfold.
    rewrite (Eff.bind_ok _ _ _ _ _ (t_test_ok b c s1 p w2 Ht)).
    rewrite Hle. unfold logging_info, Eff.emit. simpl.
    rewrite <- app_assoc. reflexivity.
  - intros Hlt. apply Hraise. apply PyFloat.lt_not_le. exact Hlt.
  - exact Hraise.
Qed.




(** *** The validators of [alpha] *)

Lemma validate_alpha_ok (a : float) :
  PyFloat.le 0%float a = true -> PyFloat.le a 0.1%float = true ->
  validate_alpha a = Ok tt.
Proof. intros H0 H1. unfold validate_alpha. rewrite H0, H1. reflexivity. Qed.

Lemma validate_alpha_raises (a : float) :
  PyFloat.le 0%float a = false \/ PyFloat.le a 0.1%float = false ->
  exists msg, validate_alpha a = Raise (ValueError msg).
Proof.
  unfold validate_alpha. intros [H0 | H1].
  - rewrite H0. simpl. eauto.
  - destruct (PyFloat.le 0%float a); simpl; [rewrite H1; simpl |]; eauto.
Qed.

(** C4 (as the code has it). The constructor fails, with [ValueError],
    exactly when [alpha] is outside the closed interval [[0, 0.1]]: below 0,
    above 0.1, or NaN. Every [alpha] with [0 <= alpha <= 0.1], 0 included,
    is accepted and stored. *)
Theorem alpha_validated_on_closed_interval
  (bt ct br cr : Z) (a : float) :
  (PyFloat.le 0%float a = true -> PyFloat.le a 0.1%float = true ->
   SimpleRegretComparisonTester_init bt ct br cr (Some a)
   = Ok {| baseline_num_trials := bt; candidate_num_trials := ct;
           baseline_num_repeats := br; candidate_num_repeats := cr;
           alpha := a |})
  /\ ((exists msg, SimpleRegretComparisonTester_init bt ct br cr (Some a)
                   = Raise (ValueError msg))
      <-> (PyFloat.lt a 0%float = true \/ PyFloat.lt 0.1%float a = true
           \/ PyFloat.isnan a = true)).
Proof.
  unfold SimpleRegretComparisonTester_init. simpl. split.
  - intros H0 H1. rewrite (validate_alpha_ok a H0 H1). reflexivity.
  - split.
    + intros [msg Hmsg].
      destruct (PyFloat.le 0%float a) eqn:H0.
      * destruct (PyFloat.le a 0.1%float) eqn:H1.
        { rewrite (validate_alpha_ok a H0 H1) in Hmsg. discriminate. }
        destruct (PyFloat.not_le_inv _ _ H1) as [Hlt | [Hn | Hn]]; auto.
        vm_compute in Hn. discriminate.
      * destruct (PyFloat.not_le_inv _ _ H0) as [Hlt | [Hn | Hn]]; auto.
        vm_compute in Hn. discriminate.
    + intros Hout.
      assert (Hle : PyFloat.le 0%float a = false
                    \/ PyFloat.le a 0.1%float = false).
      { destruct Hout as [Hlt | [Hlt | Hn]].
        - left. apply PyFloat.lt_not_le. exact Hlt.
        - right. apply PyFloat.lt_not_le. exact Hlt.
        - left. apply PyFloat.nan_not_le_r. exact Hn. }
      destruct (validate_alpha_raises a Hle) as [msg ->]. eauto.
Qed.

(** *** How many samples reach the t-test *)

(** Every call of the optimizers returns normally, with a first trial that
    carries an [acquisition] metric. *)
Definition optimizers_answer
  (converter : TrialToArrayConverter) (score_fn : BatchArrayScoreFunction)
  : Prop :=
  forall optimizer max_evaluations w,
    exists trial w' v,
      optimize optimizer converter score_fn 1 max_evaluations w = (Ok trial, w')
      /\ first_trial_metric "acquisition" trial = Ok v.

Lemma optimizer_loop converter score_fn optimizer max_evaluations :
  optimizers_answer converter score_fn ->
  forall n (s : state),
    exists samples s',
      Eff.iterate n (optimizer_repeat converter score_fn optimizer
                       max_evaluations) [] s = (Ok samples, s')
      /\ Eff.trace s' = Eff.trace s
                        ++ replicate n (EvOptimize optimizer max_evaluations)
      /\ length samples = n.
Proof.
  intros Hopt n s.
  destruct (Eff.iterate_emits (fun k (acc : list float) => length acc = k)
              (optimizer_repeat converter score_fn optimizer max_evaluations)
              (EvOptimize optimizer max_evaluations)) with (n := n) (k := O)
              (acc := @nil float) (s := s)
    as (acc' & s' & Hrun & Htr & Hlen); [| reflexivity |].
  - intros k acc s0 Hk.
    destruct (Hopt optimizer max_evaluations (Eff.world s0))
      as (trial & w' & v & Hcall & Hmetric).
    exists (acc ++ [v]), (Eff.State w' (Eff.trace s0 ++ [EvOptimize optimizer max_evaluations])).
    split; [| split; [reflexivity |]].
    + unfold optimizer_repeat. eff_unfold.
      unfold Eff.bind, Eff.emit, Eff.ext, Eff.lift, Eff.ret. simpl.
      rewrite Hcall, Hmetric. reflexivity.
    + rewrite length_app. simpl. lia.
  - exists acc', s'. rewrite Nat.add_0_r in Hlen. auto.
Qed.

Lemma length_nonempty_iff {A} (l : list A) (n : Z) :
  length l = Z.to_nat n -> (l <> [] <-> 1 <= n).
Proof.
  intros Hlen. split.
  - intros Hne. destruct l; [contradiction | simpl in Hlen; lia].
  - intros Hn ->. simpl in Hlen. lia.
Qed.

(** C9 (as the code has it). The constructor puts no bound on the repeat
    counts. When the optimizers answer every call,
    [assert_optimizer_better_simple_regret] makes [max 0 baseline_num_repeats]
    baseline and then [max 0 candidate_num_repeats] candidate optimizer
    calls, one sample each, and only then invokes the t-test, once, on the
    two lists of exactly these lengths; a sample list is non-empty exactly
    when its repeat count is at least 1. *)
Theorem samples_passed_to_t_test
  (self : SimpleRegretComparisonTester)
  (converter : TrialToArrayConverter) (score_fn : BatchArrayScoreFunction)
  (baseline_optimizer candidate_optimizer : VectorizedOptimizer)
  (s : state) :
  optimizers_answer converter score_fn ->
  exists b c r s' tail,
    assert_optimizer_better_simple_regret self converter score_fn
      baseline_optimizer candidate_optimizer s = (r, s')
    /\ Eff.trace s'
       = Eff.trace s
         ++ replicate (Z.to_nat (baseline_num_repeats self))
              (EvOptimize baseline_optimizer (baseline_num_trials self))
         ++ replicate (Z.to_nat (candidate_num_repeats self))
              (EvOptimize candidate_optimizer (candidate_num_trials self))
         ++ EvTTest b c :: tail
    /\ (tail = [] \/ exists msg, tail = [EvLogInfo msg])
    /\ length b = Z.to_nat (baseline_num_repeats self)
    /\ length c = Z.to_nat (candidate_num_repeats self)
    /\ (b <> [] <-> 1 <= baseline_num_repeats self)
    /\ (c <> [] <-> 1 <= candidate_num_repeats self).
Proof.
  intros Hopt.
  destruct (optimizer_loop converter score_fn baseline_optimizer
              (baseline_num_trials self) Hopt
              (Z.to_nat (baseline_num_repeats self)) s)
    as (b & s1 & Hb & Htr1 & Hlb).
  destruct (optimizer_loop converter score_fn candidate_optimizer
              (candidate_num_trials self) Hopt
              (Z.to_nat (candidate_num_repeats self)) s1)
    as (c & s2 & Hc & Htr2 & Hlc).
  assert (Hsamples :
    optimizer_simple_regrets self converter score_fn baseline_optimizer
      candidate_optimizer s = (Ok (b, c), s2)).
  { unfold optimizer_simple_regrets, Eff.for_range. eff_unfold.
    rewrite (Eff.bind_ok _ _ _ _ _ Hb), (Eff.bind_ok _ _ _ _ _ Hc).
    reflexivity. }
  assert (Htr : Eff.trace s2
    = Eff.trace s
      ++ replicate (Z.to_nat (baseline_num_repeats self))
           (EvOptimize baseline_optimizer (baseline_num_trials self))
      ++ replicate (Z.to_nat (candidate_num_repeats self))
           (EvOptimize candidate_optimizer (candidate_num_trials self))).
  { rewrite Htr2, Htr1, <- app_assoc. reflexivity. }
  exists b, c.
  rewrite assert_optimizer_better_simple_regret_eq.
  rewrite (Eff.bind_ok _ _ _ _ _ Hsamples).
  unfold verdict_of_samples, t_test. eff_unfold.
  unfold Eff.bind, Eff.emit, Eff.ext. simpl.
  destruct (t_test_less_mean_score b c (Eff.world s2)) as [[p | e] w3].
  - destruct (PyFloat.le p (alpha self)).
    + eexists _, _, [EvLogInfo _]. split; [reflexivity |]. simpl.
      rewrite Htr, <- !app_assoc. simpl.
      repeat split; eauto using length_nonempty_iff;
        apply length_nonempty_iff; assumption.
    + eexists _, _, []. split; [reflexivity |]. simpl.
      rewrite Htr, <- !app_assoc.
      repeat split; auto; apply length_nonempty_iff; assumption.
  - eexists _, _, []. split; [reflexivity |]. simpl.
    rewrite Htr, <- !app_assoc.
    repeat split; auto; apply length_nonempty_iff; assumption.
Qed.

(** *** Cycles of one benchmark run *)

Lemma run_single_subroutine_trace (sub : Subroutine) (st : BenchmarkState)
  (cycles : Z) (s : state) :
  (forall w, exists w', subroutine_run sub st w = (Ok tt, w')) ->
  let runner := {| benchmark_subroutines := [sub];
                   runner_num_repeats := cycles |} in
  exists s',
    run runner st s = (Ok tt, s')
    /\ Eff.trace s' = Eff.trace s ++ [EvRun runner st]
                      ++ replicate (Z.to_nat cycles) (EvSubroutine sub st).
Proof.
  intros Hsub runner.
  destruct (Eff.iterate_emits (fun (_ : nat) (_ : unit) => True)
              (fun _ : unit => run_subroutines [sub] st)
              (EvSubroutine sub st)) with (n := Z.to_nat cycles) (k := O)
              (acc := tt)
              (s := Eff.State (Eff.world s) (Eff.trace s ++ [EvRun runner st]))
    as (acc' & s' & Hrun & Htr & _); [| exact I |].
  - intros k acc s0 _.
    destruct (Hsub (Eff.world s0)) as [w' Hw'].
    exists tt, (Eff.State w' (Eff.trace s0 ++ [EvSubroutine sub st])).
    split; [| split; [reflexivity | exact I]].
    simpl. eff_unfold. unfold Eff.bind, Eff.emit, Eff.ext, Eff.ret. simpl.
    rewrite Hw'. reflexivity.
  - exists s'. destruct acc'. split.
    + unfold run, Eff.for_range. eff_unfold.
      unfold Eff.bind at 1. unfold Eff.emit at 1. exact Hrun.
    + rewrite Htr. simpl. rewrite <- app_assoc. reflexivity.
Qed.

(** One call of [_run_one] with a positive batch size and a
    non-negative number of trials, on a state whose generate-and-evaluate
    cycles do not raise: the runner is built with that batch size and
    [num_trials // batch_size] repeats and runs exactly that many cycles.
    The budget [batch_size * (num_trials // batch_size)] is at most
    [num_trials], strictly less when [batch_size] does not divide
    [num_trials], and zero when [batch_size] exceeds [num_trials]. *)
Theorem _run_one_cycles
  (benchmark_state_factory : BenchmarkStateFactory)
  (num_trials batch_size : Z) (s : state)
  (benchmark_state : BenchmarkState) (w1 : World) :
  0 < batch_size -> 0 <= num_trials ->
  call_factory benchmark_state_factory (Eff.world s) = (Ok benchmark_state, w1) ->
  (forall w, exists w',
     subroutine_run (GenerateAndEvaluate (Some batch_size)) benchmark_state w
     = (Ok tt, w')) ->
  let cycles := num_trials `div` batch_size in
  let runner := {| benchmark_subroutines := [GenerateAndEvaluate (Some batch_size)];
                   runner_num_repeats := cycles |} in
  exists r s',
    _run_one benchmark_state_factory num_trials batch_size s = (r, s')
    /\ Eff.trace s'
       = Eff.trace s
         ++ [EvFactory benchmark_state_factory; EvRun runner benchmark_state]
         ++ replicate (Z.to_nat cycles)
              (EvSubroutine (GenerateAndEvaluate (Some batch_size))
                 benchmark_state)
    /\ Z.of_nat (Z.to_nat cycles) = cycles
    /\ batch_size * cycles <= num_trials
    /\ (¬ (batch_size | num_trials) -> batch_size * cycles < num_trials)
    /\ (num_trials < batch_size -> batch_size * cycles = 0).
Proof.
  intros Hb Hn Hf Hsub cycles runner.
  assert (Hcycles : 0 <= cycles) by (apply Z.div_pos; lia).
  assert (Hle : batch_size * cycles <= num_trials)
    by (apply Z.mul_div_le; lia).
  destruct (run_single_subroutine_trace
              (GenerateAndEvaluate (Some batch_size)) benchmark_state cycles
              (Eff.State w1 (Eff.trace s ++ [EvFactory benchmark_state_factory]))
              Hsub) as (s3 & Hrun & Htr3).
  fold runner in Hrun, Htr3. simpl in Htr3.
  assert (Hprefix : exists r w,
    _run_one benchmark_state_factory num_trials batch_size s
    = (r, Eff.State w (Eff.trace s3))).
  { unfold _run_one. eff_unfold.
    rewrite (Eff.bind_ok _ _ _ _ _ (call_ok _ s _ _ Hf)).
    unfold floordiv. rewrite decide_False by lia.
    unfold Eff.bind at 1. unfold Eff.lift at 1.
    fold cycles. fold runner.
    rewrite (Eff.bind_ok _ _ _ _ _ Hrun).
    unfold Eff.bind, Eff.ext, Eff.lift.
    destruct (GetBestTrials benchmark_state 1 (Eff.world s3)) as [[best | e] w].
    - destruct (first_trial best); [| eauto].
      destruct (single_objective_metric_name
                  (problem_statement benchmark_state)); eauto.
    - eauto. }
  destruct Hprefix as (r & w & Hone).
  exists r, (Eff.State w (Eff.trace s3)).
  split; [exact Hone |]. split.
  { simpl. rewrite Htr3, <- app_assoc. reflexivity. }
  split; [lia |]. split; [exact Hle |]. split.
  - intros Hndiv. destruct (Z.eq_dec (batch_size * cycles) num_trials) as [E | E].
    + exfalso. apply Hndiv. exists cycles. lia.
    + lia.
  - intros Hsmall. unfold cycles. rewrite Z.div_small by lia. lia.
Qed.

End Testers.

(** ** A small concrete world

    Stand-ins for the collaborators, on which the testers can be run:
    the world counts the calls made, a benchmark state is a number and a
    factory returns its own number as the state. States 0 and 1 share a
    single-metric problem statement, state 2 declares two metrics, any other
    state has a different single-metric statement. *)

Module Toy.

Definition statement (st : nat) : vz.ProblemStatement unit :=
  match st with
  | 0%nat | 1%nat =>
      {| vz.search_space := tt;
         vz.metric_information :=
           [{| vz.name := "obj"; vz.goal := vz.MAXIMIZE |}] |}
  | 2%nat =>
      {| vz.search_space := tt;
         vz.metric_information :=
           [{| vz.name := "obj"; vz.goal := vz.MAXIMIZE |};
            {| vz.name := "aux"; vz.goal := vz.MAXIMIZE |}] |}
  | _ =>
      {| vz.search_space := tt;
         vz.metric_information :=
           [{| vz.name := "loss"; vz.goal := vz.MINIMIZE |}] |}
  end.

Definition trial_with (key : string) (v : float) : vz.Trial :=
  {| vz.id := 1;
     vz.final_measurement :=
       Some {| vz.metrics := {[ key := {| vz.value := v |} ]} |} |}.

(** State 1 has found 5.0, every other state 1.0. *)
Definition best_of (st : nat) : float :=
  match st with 1%nat => 5%float | _ => 1%float end.

Definition single_item (l : list vz.MetricInformation)
  : result vz.MetricInformation :=
  match l with
  | [m] => Ok m
  | _ => Raise (ValueError "item")
  end.

Definition first_curve (curves : list float) : result float :=
  match curves with
  | [] => Raise (ValueError "no curves")
  | c :: _ => Ok c
  end.

Definition of_result {A} (r : result A) (w : nat) : result A * nat := (r, S w).

Definition float_of_nat (n : nat) : float :=
  Nat.iter n (fun x => (x + 1)%float) 0%float.

Definition mean (l : list float) : float :=
  (foldr PrimFloat.add 0%float l / float_of_nat (length l))%float.

Definition std (l : list float) : float :=
  let m := mean l in
  PrimFloat.sqrt (mean (map (fun x => ((x - m) * (x - m))%float) l)).

(** A stand-in significance test: 0.01 when the baseline mean is below the
    candidate mean, 0.5 otherwise. *)
Definition p_value (baseline candidate : list float) : float :=
  if PrimFloat.ltb (mean baseline) (mean candidate)
  then 0.01%float else 0.5%float.

#[export] Instance collaborators : Collaborators := {|
  World := nat;
  SearchSpace := unit;
  BenchmarkState := nat;
  BenchmarkStateFactory := nat;
  ConvergenceCurve := float;
  ConvergenceCurveComparator := float;
  VectorizedOptimizer := float;
  TrialToArrayConverter := unit;
  BatchArrayScoreFunction := unit;
  call_factory := fun f => of_result (Ok f);
  problem_statement := statement;
  subroutine_run := fun _ _ => of_result (Ok tt);
  GetTrials := fun st => of_result (Ok [trial_with "obj" (best_of st)]);
  GetBestTrials := fun st _ => of_result (Ok [trial_with "obj" (best_of st)]);
  item := single_item;
  single_objective_metric_name := fun ps =>
    match vz.metric_information ps with
    | [m] => Ok (vz.name m)
    | _ => Raise (ValueError "not single objective")
    end;
  convert := fun metric trials =>
    of_result (first_trial_metric (vz.name metric) trials);
  align_xs := fun curves => of_result (first_curve curves);
  new_comparator := fun curve => of_result (Ok curve);
  get_log_efficiency_score := fun baseline candidate =>
    of_result (Ok (candidate - baseline)%float);
  optimize := fun optimizer _ _ _ _ =>
    of_result (Ok [trial_with "acquisition" optimizer]);
  t_test_less_mean_score := fun b c => of_result (Ok (p_value b c));
  np_mean := mean;
  np_std := std;
  str_float := fun x => if PrimFloat.is_nan x then "nan" else "<float>";
  repr_float := fun x => if PrimFloat.is_nan x then "nan" else "<float>";
  str_factory := fun f => "factory-" +:+ pretty f;
  str_statement := fun ps => "statement"
|}.

Definition start : Eff.state nat event := Eff.State 0%nat [].

Definition tester : EfficiencyComparisonTester :=
  {| num_trials := 3; num_repeats := 2 |}.

Definition regret_tester : SimpleRegretComparisonTester :=
  {| baseline_num_trials := 10; candidate_num_trials := 10;
     baseline_num_repeats := 5; candidate_num_repeats := 5;
     alpha := 0.05%float |}.

(** *** The efficiency tester on the small world *)

(** Candidate 0 against baseline 1: the score is -4, below the threshold. *)
Lemma assert_better_efficiency_verdict_witness :
  PyFloat.lt (-4)%float default_score_threshold = true
  /\ assert_better_efficiency tester 0%nat 1%nat default_score_threshold start
     = (Raise (FailedComparisonTestError
                 (failed_comparison_msg tester (-4)%float
                    default_score_threshold 0%nat 1%nat)),
        snd (log_efficiency_score_of_runs tester 0%nat 1%nat start)).
Proof.
  split; [reflexivity |].
  pose proof (@assert_better_efficiency_verdict collaborators tester 0%nat 1%nat
                default_score_threshold (-4)%float start
                (snd (log_efficiency_score_of_runs tester 0%nat 1%nat start)))
    as Hthm.
  destruct Hthm as [Hbelow _]; [vm_compute; reflexivity |].
  destruct Hbelow as [Hraise _]; [reflexivity |].
  exact Hraise.
Defined.

(** Baseline 2 declares two metrics. *)
Lemma multimetric_fails_fast_witness :
  assert_better_efficiency tester 0%nat 2%nat default_score_threshold start
  = (Raise (ValueError multimetric_msg),
     Eff.State 2%nat [EvFactory 2%nat; EvFactory 0%nat]).
Proof.
  destruct (@multimetric_fails_fast collaborators tester 0%nat 2%nat default_score_threshold
              ([], []) start 2%nat 0%nat 1%nat 2%nat)
    as (msg & _ & Hcall & Hmsg).
  - reflexivity.
  - reflexivity.
  - left. vm_compute. lia.
  - rewrite Hcall by (vm_compute; discriminate).
    rewrite Hmsg by (vm_compute; lia). reflexivity.
Defined.

(** Baseline 0 and candidate 3 have different statements. *)
Lemma different_statements_raise_before_runs_witness :
  assert_better_efficiency tester 3%nat 0%nat default_score_threshold start
  = (Raise (ValueError (different_statements_msg (statement 0) (statement 3))),
     Eff.State 2%nat [EvFactory 0%nat; EvFactory 3%nat]).
Proof.
  destruct (@different_statements_raise_before_runs collaborators tester 3%nat 0%nat
              default_score_threshold ([], []) start 0%nat 3%nat 1%nat 2%nat)
    as (_ & msg & _ & Hcall & Hmsg).
  - reflexivity.
  - reflexivity.
  - vm_compute. discriminate.
  - rewrite Hcall by (vm_compute; discriminate).
    rewrite Hmsg by (vm_compute; lia). reflexivity.
Defined.

(** The statements of baseline 0 and candidate 3 differ, yet constructing
    the tester raises nothing: the constructor never sees a statement. *)
Lemma construction_ignores_statements :
  statement 0 <> statement 3
  /\ EfficiencyComparisonTester_init (Some 3) (Some 2) = Ok tester
  /\ (forall e, EfficiencyComparisonTester_init (Some 3) (Some 2) <> Raise e).
Proof.
  split; [vm_compute; discriminate |].
  split; [reflexivity | intros e; discriminate].
Qed.

(** *** The simple-regret tester on the small world *)

(** [alpha = 0] lies outside the half-open interval (0, 0.1] and is
    accepted. *)
Lemma alpha_zero_accepted :
  PyFloat.lt 0%float 0%float = false
  /\ SimpleRegretComparisonTester_init 10 10 5 5 (Some 0%float)
     = Ok {| baseline_num_trials := 10; candidate_num_trials := 10;
             baseline_num_repeats := 5; candidate_num_repeats := 5;
             alpha := 0%float |}.
Proof. split; reflexivity. Qed.

Lemma alpha_validated_on_closed_interval_witness :
  SimpleRegretComparisonTester_init 10 10 5 5 (Some 0.1%float)
  = Ok {| baseline_num_trials := 10; candidate_num_trials := 10;
          baseline_num_repeats := 5; candidate_num_repeats := 5;
          alpha := 0.1%float |}
  /\ exists msg, SimpleRegretComparisonTester_init 10 10 5 5 (Some 0.2%float)
                 = Raise (ValueError msg).
Proof.
  split.
  - apply (proj1 (@alpha_validated_on_closed_interval collaborators 10 10 5 5 0.1%float));
      reflexivity.
  - apply (proj2 (@alpha_validated_on_closed_interval collaborators 10 10 5 5 0.2%float)).
    right. left. reflexivity.
Defined.

Definition samples_1 : list float := replicate 5 1%float.
Definition samples_5 : list float := replicate 5 5%float.



(** A tester with zero repeats is constructed without complaint and hands
    two empty sample lists to the t-test. *)
Definition no_repeats : SimpleRegretComparisonTester :=
  {| baseline_num_trials := 10; candidate_num_trials := 10;
     baseline_num_repeats := 0; candidate_num_repeats := 0;
     alpha := default_alpha |}.

Lemma zero_repeats_reach_t_test :
  SimpleRegretComparisonTester_init 10 10 0 0 None = Ok no_repeats
  /\ ¬ (1 <= baseline_num_repeats no_repeats)
  /\ Eff.trace (snd (assert_optimizer_better_simple_regret no_repeats tt tt
                       1%float 5%float start))
     = [EvTTest [] []].
Proof.
  split; [reflexivity |]. split; [simpl; lia |].
  vm_compute. reflexivity.
Qed.

Lemma optimizers_answer_toy : optimizers_answer tt tt.
Proof.
  intros optimizer max_evaluations w.
  exists [trial_with "acquisition" optimizer], (S w), optimizer.
  split; reflexivity.
Defined.

Lemma samples_passed_to_t_test_witness :
  exists b c r s' tail,
    assert_optimizer_better_simple_regret regret_tester tt tt
      1%float 5%float start = (r, s')
    /\ Eff.trace s'
       = replicate 5 (EvOptimize 1%float 10)
         ++ replicate 5 (EvOptimize 5%float 10) ++ EvTTest b c :: tail
    /\ length b = 5%nat /\ length c = 5%nat.
Proof.
  destruct (@samples_passed_to_t_test collaborators regret_tester tt tt 1%float 5%float start
              optimizers_answer_toy)
    as (b & c & r & s' & tail & Hrun & Htr & _ & Hb & Hc & _).
  exists b, c, r, s', tail. repeat split; assumption.
Defined.

(** Ten trials in batches of three: three cycles, a budget of nine. *)
Lemma _run_one_cycles_witness :
  exists r s',
    _run_one 0%nat 10 3 start = (r, s')
    /\ Eff.trace s'
       = [EvFactory 0%nat;
          EvRun {| benchmark_subroutines := [GenerateAndEvaluate (Some 3)];
                   runner_num_repeats := 3 |} 0%nat]
         ++ replicate 3 (EvSubroutine (GenerateAndEvaluate (Some 3)) 0%nat)
    /\ 3 * (10 `div` 3) < 10.
Proof.
  destruct (@_run_one_cycles collaborators 0%nat 10 3 start 0%nat 1%nat)
    as (r & s' & Hrun & Htr & _ & _ & Hlt & _).
  - lia.
  - lia.
  - reflexivity.
  - intros w. exists (S w). reflexivity.
  - exists r, s'. split; [exact Hrun |]. split; [exact Htr |].
    apply Hlt. intros [k Hk]. lia.
Defined.

End Toy.

(** ** Scalarization functions

    [scalarizing_designer.py] is not among the sources; its test is. What
    follows is modelled from the specification, over an arithmetic that can
    be the rationals (exact), Python's binary64 floats, or the binary32
    floats of a [jnp.array]. *)

Module Scalarization.

Class Arith (T : Type) : Type := {
  zero : T;
  add : T -> T -> T;
  mul : T -> T -> T
}.

#[export] Instance Q_arith : Arith Q :=
  {| zero := 0%Q; add := Qplus; mul := Qmult |}.

#[export] Instance binary64_arith : Arith float :=
  {| zero := 0%float; add := PrimFloat.add; mul := PrimFloat.mul |}.

(** IEEE binary32: 24 bits of precision, exponents below 128. *)
Record binary32 : Type := Binary32 { b32 : spec_float }.


#[export] Instance binary32_arith : Arith binary32 :=
  {| zero := Binary32 (S754_zero false);
     add := fun x y => Binary32 (SFadd 24 128 (b32 x) (b32 y));
     mul := fun x y => Binary32 (SFmul 24 128 (b32 x) (b32 y)) |}.

(** The rational a finite float stands for. *)
Definition Q_of_SF (x : spec_float) : option Q :=
  match x with
  | S754_zero _ => Some 0%Q
  | S754_finite s m e =>
      Some (inject_Z (if s then Z.neg m else Z.pos m) * Qpower 2 e)%Q
  | _ => None
  end.


Section Linear.
Context {T : Type} `{Arith T}.

(** Modelled from the spec: [LinearScalarization] of
    [scalarizing_designer.py], which is not among the sources: a fixed
    weight vector, and "score = dot(weights, values)", which "fails with a
    DimensionMismatch condition if lengths differ". The products are
    accumulated from left to right, as an array library's dot does. *)
Record LinearScalarization : Type := { weights : list T }.

Fixpoint accumulate (acc : T) (ws vs : list T) : T :=
  match ws, vs with
  | w :: ws', v :: vs' => accumulate (add acc (mul w v)) ws' vs'
  | _, _ => acc
  end.

(** Modelled from the spec: the [dot] of the array library, with the
    "DimensionMismatch condition if lengths differ". *)
Definition dot (ws vs : list T) : result T :=
  if decide (length ws = length vs)
  then Ok (accumulate zero ws vs)
  else Raise DimensionMismatch.

(** Modelled from the spec: [LinearScalarization.__call__], not among the
    sources: "score = dot(weights, values)". *)
Definition LinearScalarization_call (self : LinearScalarization)
  (values : list T) : result T :=
  dot (weights self) values.

End Linear.
Arguments LinearScalarization T : clear implicits.






(** Lengths that differ are refused. *)
Lemma LinearScalarization_mismatch (w v : list Q) :
  length w <> length v ->
  LinearScalarization_call {| weights := w |} v = Raise DimensionMismatch.
Proof.
  intros Hlen. unfold LinearScalarization_call, dot. simpl.
  rewrite decide_False by exact Hlen. reflexivity.
Qed.

(** *** Floating point against the exact dot product *)

(** The rational a float stands for, in lowest terms. *)
Definition exact (x : float) : option Q :=
  option_map Qred (Q_of_SF (Prim2SF x)).




(** *** The hypervolume scalarization

    The sources hold no definition of [HyperVolumeScalarization], only the
    test of one input, and the specification leaves its combination rule
    open. Below, the one combination the specification writes out is
    evaluated on the test's vectors, over the rationals. *)

Definition ratios (w v : list Q) : list Q := zip_with Qdiv v w.

Definition minimum (l : list Q) : option Q :=
  match l with
  | [] => None
  | x :: rest => Some (foldr Qmin x rest)
  end.

Definition mean_abs (l : list Q) : Q :=
  (foldr Qplus 0 (map Qabs l) / inject_Z (Z.of_nat (length l)))%Q.

(** Modelled from the spec: the combination that section 4.1 writes out for
    [HyperVolumeScalarization], "min(values/weights) *
    mean(|values/weights|)"; the function itself is not among the
    sources. *)
Definition written_hypervolume (w v : list Q) : option Q :=
  match minimum (ratios w v) with
  | Some m => Some (m * mean_abs (ratios w v))%Q
  | None => None
  end.

(** On w = [0.1, 0.2], v = [3.0, 4.5] the written combination gives
    590.625, not the 22.5 of the test. *)
Lemma written_hypervolume_example :
  exists r, written_hypervolume [0.1; 0.2]%Q [3; 4.5]%Q = Some r
            /\ (r == 590.625)%Q /\ ¬ (r == 22.5)%Q.
Proof.
  eexists. split; [reflexivity |]. split; [vm_compute; reflexivity |].
  vm_compute. discriminate.
Qed.

(** The smallest ratio alone is 22.5 there. *)
Lemma minimum_ratio_example :
  exists r, minimum (ratios [0.1; 0.2]%Q [3; 4.5]%Q) = Some r
            /\ (r == 22.5)%Q.
Proof. eexists. split; [reflexivity |]. vm_compute. reflexivity. Qed.

End Scalarization.

(** ** The scalarizing designer *)

Module ScalarizingDesigner.

(** Trial objects are shared between the caller, the scalarizing designer
    and the wrapped designer: they live in a store, by address, and the
    trial sets passed around are lists of addresses. *)
Abbreviation store := (gmap nat vz.Trial).

Definition scalarized_metric_name : string := "scalarized".

Section Designer.
#[local] Set Default Proof Using "Type".
Context {SearchSpace Designer Suggestion : Type}.
(** The wrapped designer's factory, [suggest] and [update]. *)
Context (designer_factory : vz.ProblemStatement SearchSpace -> Z -> Designer).
Context (designer_suggest : Designer -> Z -> list Suggestion * Designer).
Context (designer_update : Designer -> store -> list nat -> list nat -> Designer).
(** The scalarization function. *)
Context (scalarization : list float -> float).

(** Modelled from the spec: [ScalarizingDesigner] of
    [scalarizing_designer.py], which is not among the sources. Its state is
    the wrapped designer, "constructed once via a factory taking the derived
    single-objective problem statement and a seed", the scalarization
    function and the original problem statement. *)
Record ScalarizingDesigner : Type := {
  problem : vz.ProblemStatement SearchSpace;
  designer : Designer
}.

Definition derived_problem (p : vz.ProblemStatement SearchSpace)
  : vz.ProblemStatement SearchSpace :=
  {| vz.search_space := vz.search_space p;
     vz.metric_information :=
       [{| vz.name := scalarized_metric_name; vz.goal := vz.MAXIMIZE |}] |}.

Definition ScalarizingDesigner_init (p : vz.ProblemStatement SearchSpace)
  (seed : Z) : ScalarizingDesigner :=
  {| problem := p; designer := designer_factory (derived_problem p) seed |}.

(** Modelled from the spec: [ScalarizingDesigner.suggest], not among the
    sources: "delegates directly to the wrapped designer's [suggest(count)];
    returns the same suggestions unmodified". *)
Definition suggest (self : ScalarizingDesigner) (count : Z)
  : list Suggestion * ScalarizingDesigner :=
  let (suggestions, d) := designer_suggest (designer self) count in
  (suggestions, {| problem := problem self; designer := d |}).

(** Modelled from the spec: the value of one declared metric in a
    measurement, "minimize-goal metrics negated"; [None] when the
    measurement lacks the metric. Part of [ScalarizingDesigner.update], not
    among the sources. *)
Definition objective_value (m : vz.Measurement) (mi : vz.MetricInformation)
  : option float :=
  match vz.metrics m !! vz.name mi with
  | Some metric =>
      Some match vz.goal mi with
           | vz.MAXIMIZE => vz.value metric
           | vz.MINIMIZE => (- vz.value metric)%float
           end
  | None => None
  end.

(** Modelled from the spec: the scalarized value of a final measurement,
    part of [ScalarizingDesigner.update], not among the sources: "compute
    the scalarized value from its final measurement's metric values"; "if
    any declared metric is missing from a trial's final measurement, the
    scalarized value for that trial is NaN". *)
Definition scalarized_value (p : vz.ProblemStatement SearchSpace)
  (m : vz.Measurement) : float :=
  match mapM (objective_value m) (vz.metric_information p) with
  | Some values => scalarization values
  | None => PrimFloat.nan
  end.

(** Modelled from the spec: the mutation of one trial by
    [ScalarizingDesigner.update], not among the sources: "attach it as a new
    metric (conventionally named [scalarized]) on the trial's final
    measurement". The spec speaks of completed trials, which have a final
    measurement; a trial without one is left as it is. *)
Definition scalarize_trial (p : vz.ProblemStatement SearchSpace)
  (t : vz.Trial) : vz.Trial :=
  match vz.final_measurement t with
  | Some m =>
      {| vz.id := vz.id t;
         vz.final_measurement :=
           Some {| vz.metrics :=
                     <[scalarized_metric_name :=
                         {| vz.value := scalarized_value p m |}]>
                       (vz.metrics m) |} |}
  | None => t
  end.

(** The same mutation on the trial object at address [r] of the store. *)
Definition scalarize_at (p : vz.ProblemStatement SearchSpace)
  (h : store) (r : nat) : store :=
  match h !! r with
  | Some t => <[r := scalarize_trial p t]> h
  | None => h
  end.

(** Modelled from the spec: [ScalarizingDesigner.update], not among the
    sources: "for every completed trial ... then forward the mutated trial
    set (completed + active) to the wrapped designer's [update]". The result
    is the designer after the call and the store with the trials as
    mutated. *)
Definition update (self : ScalarizingDesigner) (h : store)
  (completed all_active : list nat) : ScalarizingDesigner * store :=
  let h' := foldl (scalarize_at (problem self)) h completed in
  ({| problem := problem self;
      designer := designer_update (designer self) h' completed all_active |},
   h').

Lemma scalarize_at_other p (h : store) (r r' : nat) :
  r <> r' -> scalarize_at p h r' !! r = h !! r.
Proof.
  intros Hne. unfold scalarize_at. destruct (h !! r'); [| reflexivity].
  apply lookup_insert_ne. congruence.
Qed.

Lemma scalarize_all_other p (l : list nat) (h : store) (r : nat) :
  r ∉ l -> foldl (scalarize_at p) h l !! r = h !! r.
Proof.
  revert h. induction l as [|r' l IH]; intros h Hnotin; [reflexivity |].
  apply not_elem_of_cons in Hnotin. destruct Hnotin as [Hne Hnotin].
  simpl. rewrite IH by exact Hnotin.
  apply scalarize_at_other. exact Hne.
Qed.

Lemma scalarize_all_here p (l : list nat) (h : store) (r : nat) t :
  NoDup l -> r ∈ l -> h !! r = Some t ->
  foldl (scalarize_at p) h l !! r = Some (scalarize_trial p t).
Proof.
  revert h. induction l as [|r' l IH]; intros h Hnd Hin Hr.
  - apply elem_of_nil in Hin. contradiction.
  - apply NoDup_cons in Hnd. destruct Hnd as [Hnotin Hnd]. simpl.
    destruct (decide (r = r')) as [-> | Hne].
    + rewrite scalarize_all_other by exact Hnotin.
      unfold scalarize_at. rewrite Hr. apply lookup_insert_eq.
    + apply IH; [exact Hnd | |].
      * apply elem_of_cons in Hin. destruct Hin; [contradiction | assumption].
      * rewrite scalarize_at_other by exact Hne. exact Hr.
Qed.

Lemma scalarized_value_missing p (m : vz.Measurement) mi :
  mi ∈ vz.metric_information p -> vz.metrics m !! vz.name mi = None ->
  scalarized_value p m = PrimFloat.nan.
Proof.
  intros Hin Hmiss. unfold scalarized_value.
  destruct (mapM (objective_value m) (vz.metric_information p)) as [vs|] eqn:E;
    [| reflexivity].
  exfalso.
  assert (Hall : Forall (is_Some ∘ objective_value m) (vz.metric_information p)).
  { apply mapM_is_Some. rewrite E. eauto. }
  rewrite Forall_forall in Hall. specialize (Hall mi Hin).
  unfold compose, objective_value in Hall. rewrite Hmiss in Hall.
  destruct Hall as [x Hx]. discriminate.
Qed.

(** C6. For a completed trial whose final measurement lacks a declared
    metric, [update] returns (it is a total function: nothing is raised),
    and afterwards that same trial's final measurement has a [scalarized]
    metric whose value is NaN, its other metrics unchanged; the wrapped
    designer's [update] is called on the store in which this holds. *)
Theorem update_missing_metric_nan
  (self : ScalarizingDesigner) (h : store) (completed all_active : list nat)
  (r : nat) (t : vz.Trial) (m : vz.Measurement) (mi : vz.MetricInformation) :
  NoDup completed -> r ∈ completed ->
  h !! r = Some t -> vz.final_measurement t = Some m ->
  mi ∈ vz.metric_information (problem self) ->
  vz.metrics m !! vz.name mi = None ->
  exists self' h' t' m' metric,
    update self h completed all_active = (self', h')
    /\ h' !! r = Some t' /\ vz.id t' = vz.id t
    /\ vz.final_measurement t' = Some m'
    /\ vz.metrics m' !! scalarized_metric_name = Some metric
    /\ PyFloat.isnan (vz.value metric) = true
    /\ (forall k, k <> scalarized_metric_name ->
                  vz.metrics m' !! k = vz.metrics m !! k)
    /\ designer self'
       = designer_update (designer self) h' completed all_active.
Proof.
  intros Hnd Hin Hr Hm Hmi Hmiss.
  eexists _, _, (scalarize_trial (problem self) t), _, _.
  split; [reflexivity |]. split.
  { apply scalarize_all_here; assumption. }
  unfold scalarize_trial. rewrite Hm. simpl.
  split; [reflexivity |]. split; [reflexivity |]. split.
  { apply lookup_insert_eq. }
  split.
  { simpl. rewrite (scalarized_value_missing _ _ _ Hmi Hmiss). reflexivity. }
  split; [| reflexivity].
  intros k Hk. apply lookup_insert_ne. congruence.
Qed.

End Designer.

(** *** The test's scenario

    Two declared metrics, one completed trial measured on [metric1] only;
    the wrapped designer keeps the store it was last updated with. *)

Definition test_problem : vz.ProblemStatement unit :=
  {| vz.search_space := tt;
     vz.metric_information :=
       [{| vz.name := "metric1"; vz.goal := vz.MAXIMIZE |};
        {| vz.name := "metric2"; vz.goal := vz.MAXIMIZE |}] |}.

Definition test_trial : vz.Trial :=
  {| vz.id := 1;
     vz.final_measurement :=
       Some {| vz.metrics := {[ "metric1" := {| vz.value := 0.4%float |} ]} |} |}.

Definition remember (d : store) (h : store) (completed active : list nat)
  : store := h.

Definition sum_scalarization (values : list float) : float :=
  foldr PrimFloat.add 0%float values.

Definition test_designer : @ScalarizingDesigner unit store :=
  {| problem := test_problem; designer := ∅ |}.

Definition after_update : @ScalarizingDesigner unit store * store :=
  update remember sum_scalarization test_designer {[ 0%nat := test_trial ]}
    [0%nat] [].

Lemma update_missing_metric_nan_witness :
  exists t' m' metric,
    snd after_update !! 0%nat = Some t'
    /\ vz.final_measurement t' = Some m'
    /\ vz.metrics m' !! "scalarized" = Some metric
    /\ PyFloat.isnan (vz.value metric) = true
    /\ designer (fst after_update) = snd after_update.
Proof.
  destruct (update_missing_metric_nan remember sum_scalarization
              test_designer {[ 0%nat := test_trial ]} [0%nat] [] 0%nat
              test_trial
              {| vz.metrics := {[ "metric1" := {| vz.value := 0.4%float |} ]} |}
              {| vz.name := "metric2"; vz.goal := vz.MAXIMIZE |})
    as (self' & h' & t' & m' & metric & Hup & Ht' & _ & Hm' & Hs & Hnan & _ & Hd).
  - apply NoDup_singleton.
  - set_solver.
  - reflexivity.
  - reflexivity.
  - simpl. set_solver.
  - reflexivity.
  - unfold after_update. rewrite Hup. simpl.
    exists t', m', metric. repeat split; assumption.
Defined.

End ScalarizingDesigner.

(** * Further properties of the testers *)

(** ** The order on Python floats *)

Module PyFloatOrder.

Ltac cmp_cases :=
  repeat match goal with
  | |- context [Pos.compare_cont Eq ?a ?b] =>
      change (Pos.compare_cont Eq a b) with (Pos.compare a b)
  | |- context [(?a ?= ?b)%Z] => destruct (Z.compare_spec a b)
  | |- context [(?a ?= ?b)%positive] => destruct (Pos.compare_spec a b)
  end.

Ltac by_float_cases x y z :=
  destruct x as [?s|?s| |?s ?m ?e], y as [?s|?s| |?s ?m ?e],
           z as [?s|?s| |?s ?m ?e];
  try discriminate; try reflexivity;
  repeat match goal with b : bool |- _ => destruct b end;
  try discriminate; try reflexivity;
  cmp_cases; simpl; intros; try discriminate; try reflexivity;
  exfalso; lia.

Lemma SFleb_trans (x y z : spec_float) :
  SFleb x y = true -> SFleb y z = true -> SFleb x z = true.
Proof. unfold SFleb, SFcompare. by_float_cases x y z. Qed.

Lemma SFltb_leb_trans (x y z : spec_float) :
  SFltb x y = true -> SFleb y z = true -> SFltb x z = true.
Proof. unfold SFleb, SFltb, SFcompare. by_float_cases x y z. Qed.

(** [a <= b] and [b <= c] give [a <= c]. *)
Lemma le_trans (a b c : float) :
  PyFloat.le a b = true -> PyFloat.le b c = true -> PyFloat.le a c = true.
Proof.
  unfold PyFloat.le. rewrite !FloatAxioms.leb_spec. apply SFleb_trans.
Qed.

(** [a < b] and [b <= c] give [a < c]. *)
Lemma lt_le_trans (a b c : float) :
  PyFloat.lt a b = true -> PyFloat.le b c = true -> PyFloat.lt a c = true.
Proof.
  unfold PyFloat.lt, PyFloat.le.
  rewrite !FloatAxioms.ltb_spec, FloatAxioms.leb_spec. apply SFltb_leb_trans.
Qed.

Lemma isnan_spec (a : float) :
  PyFloat.isnan a = true -> Prim2SF a = S754_nan.
Proof.
  unfold PyFloat.isnan, PrimFloat.is_nan.
  rewrite FloatAxioms.eqb_spec. unfold SFeqb.
  destruct (Prim2SF a) as [s|s| |s m e]; simpl; try reflexivity.
  - discriminate.
  - destruct s; discriminate.
  - destruct s; rewrite Z.compare_refl, Pos.compare_cont_refl; discriminate.
Qed.

(** No [<] and no [<=] with a NaN operand is true. *)
Lemma lt_nan (a b : float) :
  PyFloat.isnan a = true \/ PyFloat.isnan b = true -> PyFloat.lt a b = false.
Proof.
  unfold PyFloat.lt. rewrite FloatAxioms.ltb_spec. unfold SFltb.
  intros [Ha | Hb].
  - rewrite (isnan_spec a Ha). reflexivity.
  - rewrite (isnan_spec b Hb). destruct (Prim2SF a); reflexivity.
Qed.

Lemma le_nan (a b : float) :
  PyFloat.isnan a = true \/ PyFloat.isnan b = true -> PyFloat.le a b = false.
Proof.
  unfold PyFloat.le. rewrite FloatAxioms.leb_spec. unfold SFleb.
  intros [Ha | Hb].
  - rewrite (isnan_spec a Ha). reflexivity.
  - rewrite (isnan_spec b Hb). destruct (Prim2SF a); reflexivity.
Qed.

End PyFloatOrder.

(** ** More about loops in the effect monad *)

Module EffFacts.
Section EffFacts.
Context {W Ev : Type}.

Lemma bind_ok_inv {A B} (m : Eff.M W Ev A) (k : A -> Eff.M W Ev B) s b s2 :
  Eff.bind m k s = (Ok b, s2) ->
  exists a s1, m s = (Ok a, s1) /\ k a s1 = (Ok b, s2).
Proof.
  unfold Eff.bind. destruct (m s) as [[a|e] s1]; intros Hk.
  - exists a, s1. split; [reflexivity | exact Hk].
  - discriminate.
Qed.

(** [range(n)] with [n <= 0] is empty: the body never runs. *)
Lemma for_range_nonpos {A} (n : Z) (body : A -> Eff.M W Ev A) acc s :
  n <= 0 -> Eff.for_range n body acc s = (Ok acc, s).
Proof.
  intros Hn. unfold Eff.for_range.
  replace (Z.to_nat n) with O by lia. reflexivity.
Qed.

(** What every successful pass does to the accumulator, a loop that ran
    to its end has done [n] times. *)
Lemma iterate_ok_invariant {A} (P : nat -> A -> Prop)
  (body : A -> Eff.M W Ev A) :
  (forall k acc s acc' s',
     P k acc -> body acc s = (Ok acc', s') -> P (S k) acc') ->
  forall n k acc s acc' s',
    P k acc -> Eff.iterate n body acc s = (Ok acc', s') ->
    P (n + k)%nat acc'.
Proof.
  intros Hstep n. induction n as [|n IH]; intros k acc s acc' s' HP Hrun.
  - simpl in Hrun. unfold Eff.ret in Hrun. inversion Hrun; subst. exact HP.
  - rewrite Eff.iterate_S in Hrun.
    apply bind_ok_inv in Hrun. destruct Hrun as (a1 & s1 & Hb & Hrest).
    replace (S n + k)%nat with (n + S k)%nat by lia.
    eapply IH; [| exact Hrest]. eapply Hstep; eassumption.
Qed.

(** A loop whose every pass succeeds from any state that satisfies an
    invariant, and keeps it, runs to its end. *)
Lemma iterate_total {A} (I : nat -> A -> Eff.state W Ev -> Prop)
  (body : A -> Eff.M W Ev A) :
  (forall k acc s, I k acc s ->
     exists acc' s', body acc s = (Ok acc', s') /\ I (S k) acc' s') ->
  forall n k acc s, I k acc s ->
    exists acc' s', Eff.iterate n body acc s = (Ok acc', s')
                    /\ I (n + k)%nat acc' s'.
Proof.
  intros Hbody n. induction n as [|n IH]; intros k acc s HI.
  - exists acc, s. split; [reflexivity | exact HI].
  - destruct (Hbody k acc s HI) as (acc1 & s1 & Hb & HI1).
    destruct (IH (S k) acc1 s1 HI1) as (acc2 & s2 & Hi & HI2).
    exists acc2, s2. rewrite Eff.iterate_S, (Eff.bind_ok _ _ _ _ _ Hb).
    split; [exact Hi |].
    replace (S n + k)%nat with (n + S k)%nat by lia. exact HI2.
Qed.

(** A computation is silent when it records nothing. *)
Definition silent {A} (m : Eff.M W Ev A) : Prop :=
  forall s, Eff.trace (snd (m s)) = Eff.trace s.

Lemma silent_ret {A} (a : A) : silent (Eff.ret a).
Proof. intros s. reflexivity. Qed.

Lemma silent_raise {A} (e : exn) : silent (@Eff.raise W Ev A e).
Proof. intros s. reflexivity. Qed.


Lemma silent_ext {A} (f : W -> result A * W) : silent (Eff.ext f).
Proof. intros s. unfold Eff.ext. destruct (f (Eff.world s)). reflexivity. Qed.

Lemma silent_bind {A B} (m : Eff.M W Ev A) (k : A -> Eff.M W Ev B) :
  silent m -> (forall a, silent (k a)) -> silent (Eff.bind m k).
Proof.
  intros Hm Hk s. unfold Eff.bind. specialize (Hm s).
  destruct (m s) as [[a | e] s1]; simpl in *.
  - rewrite Hk. exact Hm.
  - exact Hm.
Qed.

End EffFacts.
End EffFacts.

Ltac unfold_eff := unfold mbind, eff_bind, mret, eff_ret in *.

Section MoreTesters.
Context `{Collaborators}.

Abbreviation M := (Eff.M World event).
Abbreviation state := (Eff.state World event).

(** ** NaN scores and p-values *)

(** A log-efficiency score that is NaN, or a NaN threshold, never fails the
    efficiency test: [score < threshold] is false. *)
Theorem nan_score_passes
  (self : EfficiencyComparisonTester)
  (candidate_state_factory baseline_state_factory : BenchmarkStateFactory)
  (score_threshold log_eff_score : float) (s s1 : state) :
  log_efficiency_score_of_runs self candidate_state_factory
    baseline_state_factory s = (Ok log_eff_score, s1) ->
  PyFloat.isnan log_eff_score = true \/ PyFloat.isnan score_threshold = true ->
  assert_better_efficiency self candidate_state_factory
    baseline_state_factory score_threshold s = (Ok tt, s1).
Proof.
  intros Hscore Hnan. unfold assert_better_efficiency. unfold_eff.
  rewrite (Eff.bind_ok _ _ _ _ _ Hscore).
  rewrite (PyFloatOrder.lt_nan _ _ Hnan). reflexivity.
Qed.

(** A p-value that is NaN fails the simple-regret test at every alpha, on
    both entry points: [p_value <= alpha] is false. *)
Theorem nan_p_value_fails
  (self : SimpleRegretComparisonTester)
  (converter : TrialToArrayConverter) (score_fn : BatchArrayScoreFunction)
  (baseline_optimizer candidate_optimizer : VectorizedOptimizer)
  (baseline_factory candidate_factory : BenchmarkStateFactory)
  (baseline_batch_size candidate_batch_size : Z)
  (s s1 : state) (b c : list float) (p_value : float) (w2 : World) :
  t_test_less_mean_score b c (Eff.world s1) = (Ok p_value, w2) ->
  PyFloat.isnan p_value = true ->
  let failed :=
    (Raise (FailedSimpleRegretConvergenceTestError
              (_generate_summary self b c p_value)),
     Eff.State w2 (Eff.trace s1 ++ [EvTTest b c])) in
  (optimizer_simple_regrets self converter score_fn baseline_optimizer
     candidate_optimizer s = (Ok (b, c), s1) ->
   assert_optimizer_better_simple_regret self converter score_fn
     baseline_optimizer candidate_optimizer s = failed)
  /\ (benchmark_simple_regrets self baseline_factory candidate_factory
        baseline_batch_size candidate_batch_size s = (Ok (b, c), s1) ->
      assert_benchmark_state_better_simple_regret self baseline_factory
        candidate_factory baseline_batch_size candidate_batch_size s = failed).
Proof.
  intros Ht Hnan failed.
  assert (Hle : PyFloat.le p_value (alpha self) = false)
    by (apply PyFloatOrder.le_nan; left; exact Hnan).
  split; intros Hm.
  - rewrite assert_optimizer_better_simple_regret_eq.
    destruct (verdict_of_samples_outcome self _ s s1 b c p_value w2 Hm Ht)
      as (_ & _ & Hraise).
    exact (Hraise Hle).
  - rewrite assert_benchmark_state_better_simple_regret_eq.
    destruct (verdict_of_samples_outcome self _ s s1 b c p_value w2 Hm Ht)
      as (_ & _ & Hraise).
    exact (Hraise Hle).
Qed.

(** ** Thresholds *)

(** A run of the efficiency test that passes at one threshold passes, with
    the same final state, at every lower threshold. *)
Theorem lower_threshold_still_passes
  (self : EfficiencyComparisonTester)
  (candidate_state_factory baseline_state_factory : BenchmarkStateFactory)
  (threshold lower : float) (s s1 : state) :
  assert_better_efficiency self candidate_state_factory
    baseline_state_factory threshold s = (Ok tt, s1) ->
  PyFloat.le lower threshold = true ->
  assert_better_efficiency self candidate_state_factory
    baseline_state_factory lower s = (Ok tt, s1).
Proof.
  unfold assert_better_efficiency. unfold_eff. intros Hpass Hle.
  apply EffFacts.bind_ok_inv in Hpass.
  destruct Hpass as (score & s0 & Hscore & Hcheck).
  rewrite (Eff.bind_ok _ _ _ _ _ Hscore).
  destruct (PyFloat.lt score threshold) eqn:Hlt; [discriminate |].
  destruct (PyFloat.lt score lower) eqn:Hlt'.
  - rewrite (PyFloatOrder.lt_le_trans _ _ _ Hlt' Hle) in Hlt. discriminate.
  - exact Hcheck.
Qed.

(** The same tester with another significance level. *)
Definition with_alpha (self : SimpleRegretComparisonTester) (a : float)
  : SimpleRegretComparisonTester :=
  {| baseline_num_trials := baseline_num_trials self;
     candidate_num_trials := candidate_num_trials self;
     baseline_num_repeats := baseline_num_repeats self;
     candidate_num_repeats := candidate_num_repeats self;
     alpha := a |}.

Lemma verdict_passes_at_larger_alpha
  (self : SimpleRegretComparisonTester) (a : float)
  (m : M (list float * list float)) (s s1 : state) :
  Eff.bind m (verdict_of_samples self) s = (Ok tt, s1) ->
  PyFloat.le (alpha self) a = true ->
  exists s1', Eff.bind m (verdict_of_samples (with_alpha self a)) s = (Ok tt, s1')
              /\ Eff.world s1' = Eff.world s1.
Proof.
  intros Hpass Hle.
  apply EffFacts.bind_ok_inv in Hpass.
  destruct Hpass as ([b c] & s0 & Hm & Hverdict).
  rewrite (Eff.bind_ok _ _ _ _ _ Hm).
  unfold verdict_of_samples in *. unfold_eff.
  apply EffFacts.bind_ok_inv in Hverdict.
  destruct Hverdict as (p & s2 & Ht & Hif).
  rewrite (Eff.bind_ok _ _ _ _ _ Ht).
  destruct (PyFloat.le p (alpha self)) eqn:Hp; [| discriminate].
  simpl. rewrite (PyFloatOrder.le_trans _ _ _ Hp Hle).
  unfold logging_info, Eff.emit in *. inversion Hif; subst.
  eexists. split; reflexivity.
Qed.

(** A run of the simple-regret test that passes at one alpha passes at
    every larger alpha, on both entry points, and leaves the world as
    before (only the logged summary, which prints alpha, differs). *)
Theorem larger_alpha_still_passes
  (self : SimpleRegretComparisonTester) (larger : float)
  (converter : TrialToArrayConverter) (score_fn : BatchArrayScoreFunction)
  (baseline_optimizer candidate_optimizer : VectorizedOptimizer)
  (baseline_factory candidate_factory : BenchmarkStateFactory)
  (baseline_batch_size candidate_batch_size : Z)
  (s s1 : state) :
  PyFloat.le (alpha self) larger = true ->
  (assert_optimizer_better_simple_regret self converter score_fn
     baseline_optimizer candidate_optimizer s = (Ok tt, s1) ->
   exists s1',
     assert_optimizer_better_simple_regret (with_alpha self larger) converter
       score_fn baseline_optimizer candidate_optimizer s = (Ok tt, s1')
     /\ Eff.world s1' = Eff.world s1)
  /\ (assert_benchmark_state_better_simple_regret self baseline_factory
        candidate_factory baseline_batch_size candidate_batch_size s
      = (Ok tt, s1) ->
      exists s1',
        assert_benchmark_state_better_simple_regret (with_alpha self larger)
          baseline_factory candidate_factory baseline_batch_size
          candidate_batch_size s = (Ok tt, s1')
        /\ Eff.world s1' = Eff.world s1).
Proof.
  intros Hle. split; intros Hpass.
  - rewrite assert_optimizer_better_simple_regret_eq in *.
    exact (verdict_passes_at_larger_alpha self larger _ s s1 Hpass Hle).
  - rewrite assert_benchmark_state_better_simple_regret_eq in *.
    exact (verdict_passes_at_larger_alpha self larger _ s s1 Hpass Hle).
Qed.

(** ** Repeats of the efficiency test *)

(** With [num_repeats <= 0] the loop body never runs: no factory is called,
    no statement is looked at and nothing is run (the trace is unchanged),
    whatever the factories would produce; [align_xs] is asked to align the
    empty list, and what it raises is what the call raises. *)
Theorem no_repeats_no_guards
  (self : EfficiencyComparisonTester)
  (candidate_state_factory baseline_state_factory : BenchmarkStateFactory)
  (score_threshold : float) (s : state) :
  num_repeats self <= 0 ->
  exists r w,
    assert_better_efficiency self candidate_state_factory
      baseline_state_factory score_threshold s
    = (r, Eff.State w (Eff.trace s))
    /\ (forall e w1, align_xs [] (Eff.world s) = (Raise e, w1) ->
                     r = Raise e /\ w = w1).
Proof.
  intros Hn.
  set (tail := fun curves : list ConvergenceCurve * list ConvergenceCurve =>
    Eff.bind (W := World) (Ev := event)
      (Eff.ext (align_xs (fst curves))) (fun baseline_curve =>
    Eff.bind (Eff.ext (align_xs (snd curves))) (fun candidate_curve =>
    Eff.bind (Eff.ext (new_comparator baseline_curve)) (fun comparator =>
    Eff.bind (Eff.ext (get_log_efficiency_score comparator candidate_curve))
      (fun log_eff_score =>
         if PyFloat.lt log_eff_score score_threshold
         then Eff.raise (FailedComparisonTestError
                (failed_comparison_msg self log_eff_score score_threshold
                   candidate_state_factory baseline_state_factory))
         else Eff.ret tt))))).
  assert (Heq : assert_better_efficiency self candidate_state_factory
                  baseline_state_factory score_threshold s = tail ([], []) s).
  { unfold assert_better_efficiency, log_efficiency_score_of_runs. unfold_eff.
    unfold Eff.bind at 1 2.
    rewrite (EffFacts.for_range_nonpos _ _ _ _ Hn).
    unfold tail, Eff.bind. simpl.
    destruct (Eff.ext (align_xs []) s) as [[bc | e] s1]; [| reflexivity].
    destruct (Eff.ext (align_xs []) s1) as [[cc | e] s2]; [| reflexivity].
    destruct (Eff.ext (new_comparator bc) s2) as [[cmp | e] s3];
      [| reflexivity].
    destruct (Eff.ext (get_log_efficiency_score cmp cc) s3) as [[sc | e] s4];
      reflexivity. }
  assert (Hsilent : EffFacts.silent (tail ([], []))).
  { unfold tail.
    repeat (apply EffFacts.silent_bind; [apply EffFacts.silent_ext | intros ?]).
    destruct (PyFloat.lt _ _);
      [apply EffFacts.silent_raise | apply EffFacts.silent_ret]. }
  rewrite Heq. specialize (Hsilent s).
  destruct (tail ([], []) s) as [r [w tr]] eqn:Hrun. simpl in Hsilent. subst tr.
  exists r, w. split; [reflexivity |].
  intros e w1 Halign. unfold tail in Hrun. simpl in Hrun.
  rewrite (Eff.bind_raise _ _ s e (Eff.State w1 (Eff.trace s))) in Hrun.
  - inversion Hrun; subst. auto.
  - unfold Eff.ext. rewrite Halign. reflexivity.
Qed.

Ltac bind_inv Hrun :=
  let a := fresh "a" in
  let s0 := fresh "s" in
  let Hm := fresh "Hm" in
  apply EffFacts.bind_ok_inv in Hrun;
  destruct Hrun as (a & s0 & Hm & Hrun).

Lemma efficiency_repeat_appends runner cf bf
  (bs cs bs' cs' : list ConvergenceCurve) (s s' : state) :
  efficiency_repeat runner cf bf (bs, cs) s = (Ok (bs', cs'), s') ->
  length bs' = S (length bs) /\ length cs' = S (length cs).
Proof.
  unfold efficiency_repeat. unfold_eff. intros Hrun.
  bind_inv Hrun. bind_inv Hrun.
  destruct (bool_decide _); [discriminate |].
  destruct (bool_decide _); [discriminate |].
  do 8 bind_inv Hrun.
  unfold Eff.ret in Hrun. inversion Hrun; subst.
  rewrite !length_app. simpl. lia.
Qed.

(** Whenever the loop of [assert_better_efficiency] runs to its end, it has
    collected exactly [max 0 num_repeats] baseline curves and as many
    candidate curves: [align_xs] is given two lists of the same length. *)
Theorem curve_lists_grow_together
  (runner : BenchmarkRunner)
  (candidate_state_factory baseline_state_factory : BenchmarkStateFactory)
  (n : Z) (s s' : state)
  (baseline_curves candidate_curves : list ConvergenceCurve) :
  Eff.for_range n
    (efficiency_repeat runner candidate_state_factory baseline_state_factory)
    ([], []) s
  = (Ok (baseline_curves, candidate_curves), s') ->
  length baseline_curves = Z.to_nat n
  /\ length candidate_curves = Z.to_nat n.
Proof.
  unfold Eff.for_range. intros Hrun.
  pose proof (EffFacts.iterate_ok_invariant
    (fun k (acc : list ConvergenceCurve * list ConvergenceCurve) =>
       length (fst acc) = k /\ length (snd acc) = k)
    (efficiency_repeat runner candidate_state_factory baseline_state_factory))
    as Hinv.
  specialize (Hinv ltac:(
    intros k [bs cs] s0 [bs' cs'] s0' [Hb Hc] Hbody; simpl in *;
    destruct (efficiency_repeat_appends _ _ _ _ _ _ _ _ _ Hbody);
    split; congruence)).
  specialize (Hinv (Z.to_nat n) O ([], []) s (baseline_curves, candidate_curves)
                s' (conj eq_refl eq_refl) Hrun).
  rewrite Nat.add_0_r in Hinv. exact Hinv.
Qed.

(** ** Failures while collecting samples *)

(** When the first baseline optimization returns trials from which no
    simple regret can be read, the call raises at once: [IndexError] for an
    empty list, [AttributeError] for a first trial without final
    measurement, [KeyError] for a final measurement without an
    [acquisition] metric. Only that one optimizer call has been made: no
    candidate optimization and no t-test. *)
Theorem unreadable_first_sample_aborts
  (self : SimpleRegretComparisonTester)
  (converter : TrialToArrayConverter) (score_fn : BatchArrayScoreFunction)
  (baseline_optimizer candidate_optimizer : VectorizedOptimizer)
  (s : state) (trial : list vz.Trial) (w1 : World) (e : exn) :
  1 <= baseline_num_repeats self ->
  optimize baseline_optimizer converter score_fn 1 (baseline_num_trials self)
    (Eff.world s) = (Ok trial, w1) ->
  first_trial_metric "acquisition" trial = Raise e ->
  assert_optimizer_better_simple_regret self converter score_fn
    baseline_optimizer candidate_optimizer s
  = (Raise e,
     Eff.State w1 (Eff.trace s ++ [EvOptimize baseline_optimizer
                                     (baseline_num_trials self)]))
  /\ (trial = [] -> e = IndexError)
  /\ (forall t rest, trial = t :: rest ->
         vz.final_measurement t = None -> e = AttributeError)
  /\ (forall t rest m, trial = t :: rest ->
         vz.final_measurement t = Some m ->
         vz.metrics m !! "acquisition" = None -> e = KeyError "acquisition").
Proof.
  intros Hn Hopt Hmetric. split; [| split; [| split]].
  - rewrite assert_optimizer_better_simple_regret_eq.
    apply Eff.bind_raise.
    unfold optimizer_simple_regrets. unfold_eff.
    apply Eff.bind_raise. apply for_range_first_raises; [exact Hn |].
    unfold optimizer_repeat. unfold_eff.
    unfold Eff.bind, Eff.emit, Eff.ext, Eff.lift. simpl.
    rewrite Hopt, Hmetric. reflexivity.
  - intros ->. unfold first_trial_metric, first_trial in Hmetric. congruence.
  - intros t rest -> Hfm.
    unfold first_trial_metric, first_trial, trial_metric in Hmetric.
    rewrite Hfm in Hmetric. congruence.
  - intros t rest m -> Hfm Hkey.
    unfold first_trial_metric, first_trial, trial_metric in Hmetric.
    rewrite Hfm, Hkey in Hmetric. congruence.
Qed.

(** A batch size of zero makes the benchmark entry point raise
    [ZeroDivisionError] in its first repeat, after the first benchmark state
    has been built and before anything is run. *)
Theorem zero_batch_size_raises
  (self : SimpleRegretComparisonTester)
  (baseline_factory candidate_factory : BenchmarkStateFactory)
  (candidate_batch_size : Z)
  (s : state) (benchmark_state : BenchmarkState) (w1 : World) :
  1 <= baseline_num_repeats self ->
  call_factory baseline_factory (Eff.world s) = (Ok benchmark_state, w1) ->
  assert_benchmark_state_better_simple_regret self baseline_factory
    candidate_factory 0 candidate_batch_size s
  = (Raise ZeroDivisionError,
     Eff.State w1 (Eff.trace s ++ [EvFactory baseline_factory])).
Proof.
  intros Hn Hf.
  rewrite assert_benchmark_state_better_simple_regret_eq.
  apply Eff.bind_raise.
  unfold benchmark_simple_regrets. unfold_eff.
  apply Eff.bind_raise. apply for_range_first_raises; [exact Hn |].
  unfold benchmark_repeat, _run_one. unfold_eff.
  apply Eff.bind_raise.
  rewrite (Eff.bind_ok _ _ _ _ _ (call_ok _ s _ _ Hf)).
  reflexivity.
Qed.

(** ** Batches and cycles *)



(** ** One successful repeat of the efficiency test *)

Lemma efficiency_repeat_trace
  (self : EfficiencyComparisonTester)
  (candidate_state_factory baseline_state_factory : BenchmarkStateFactory)
  (baseline_curves candidate_curves : list ConvergenceCurve)
  (s : state) (baseline_state candidate_state : BenchmarkState)
  (w1 w2 : World) (metric : vz.MetricInformation) :
  call_factory baseline_state_factory (Eff.world s) = (Ok baseline_state, w1) ->
  call_factory candidate_state_factory w1 = (Ok candidate_state, w2) ->
  ¬ (1 < length (vz.metric_information (problem_statement baseline_state)))%nat ->
  problem_statement baseline_state = problem_statement candidate_state ->
  (forall st w, exists w',
     subroutine_run (GenerateAndEvaluate None) st w = (Ok tt, w')) ->
  item (vz.metric_information (problem_statement baseline_state)) = Ok metric ->
  (forall st w, exists trials w', GetTrials st w = (Ok trials, w')) ->
  (forall trials w, exists curve w', convert metric trials w = (Ok curve, w')) ->
  let runner := efficiency_runner self in
  let cycles st := replicate (Z.to_nat (num_trials self))
                     (EvSubroutine (GenerateAndEvaluate None) st) in
  exists baseline_curve candidate_curve s',
    efficiency_repeat runner candidate_state_factory baseline_state_factory
      (baseline_curves, candidate_curves) s
    = (Ok (baseline_curves ++ [baseline_curve],
           candidate_curves ++ [candidate_curve]), s')
    /\ Eff.trace s'
       = Eff.trace s
         ++ [EvFactory baseline_state_factory; EvFactory candidate_state_factory]
         ++ EvRun runner baseline_state :: cycles baseline_state
         ++ EvRun runner candidate_state :: cycles candidate_state.
Proof.
  intros Hbf Hcf Hsingle Hsame Hsub Hitem Htrials Hconv runner cycles.
  set (s2 := Eff.State w2 (Eff.trace s ++ [EvFactory baseline_state_factory;
                                           EvFactory candidate_state_factory])).
  destruct (run_single_subroutine_trace (GenerateAndEvaluate None)
              baseline_state (num_trials self) s2 (Hsub baseline_state))
    as (s3 & Hrun1 & Htr3).
  destruct (run_single_subroutine_trace (GenerateAndEvaluate None)
              candidate_state (num_trials self) s3 (Hsub candidate_state))
    as (s4 & Hrun2 & Htr4).
  destruct (Htrials baseline_state (Eff.world s4)) as (tb & w5 & Htb).
  destruct (Hconv tb w5) as (bc & w6 & Hbc).
  destruct (Htrials candidate_state w6) as (tc & w7 & Htc).
  destruct (Hconv tc w7) as (cc & w8 & Hcc).
  exists bc, cc, (Eff.State w8 (Eff.trace s4)).
  split.
  - unfold efficiency_repeat. unfold_eff.
    rewrite (Eff.bind_ok _ _ _ _ _ (call_ok _ s _ _ Hbf)).
    assert (Hc' : call candidate_state_factory
                    (Eff.State w1 (Eff.trace s ++ [EvFactory baseline_state_factory]))
                  = (Ok candidate_state, s2)).
    { rewrite (call_ok _ _ candidate_state w2) by exact Hcf. unfold s2. simpl.
      rewrite <- app_assoc. reflexivity. }
    rewrite (Eff.bind_ok _ _ _ _ _ Hc').
    rewrite bool_decide_eq_false_2 by exact Hsingle.
    rewrite bool_decide_eq_false_2 by (intros Hne; apply Hne; exact Hsame).
    fold runner. unfold runner, efficiency_runner.
    rewrite (Eff.bind_ok _ _ _ _ _ Hrun1), (Eff.bind_ok _ _ _ _ _ Hrun2).
    rewrite Hitem.
    unfold Eff.bind, Eff.lift, Eff.ext, Eff.ret. simpl.
    rewrite Htb. simpl. rewrite Hbc. simpl. rewrite Htc. simpl.
    rewrite Hcc. reflexivity.
  - simpl. rewrite Htr4, Htr3. unfold s2. simpl.
    rewrite <- !app_assoc. reflexivity.
Qed.

(** When both factories answer with single-metric, identical statements
    and the collaborators do not raise, one repeat builds the baseline state
    then the candidate state, runs the baseline for [max 0 num_trials]
    cycles of the parameterless [GenerateAndEvaluate()], then the candidate
    for as many, and appends one curve to each list. *)
Theorem efficiency_repeat_runs_both
  (self : EfficiencyComparisonTester)
  (candidate_state_factory baseline_state_factory : BenchmarkStateFactory)
  (baseline_curves candidate_curves : list ConvergenceCurve)
  (s : state) (baseline_state candidate_state : BenchmarkState)
  (w1 w2 : World) (metric : vz.MetricInformation) :
  call_factory baseline_state_factory (Eff.world s) = (Ok baseline_state, w1) ->
  call_factory candidate_state_factory w1 = (Ok candidate_state, w2) ->
  ¬ (1 < length (vz.metric_information (problem_statement baseline_state)))%nat ->
  problem_statement baseline_state = problem_statement candidate_state ->
  (forall st w, exists w',
     subroutine_run (GenerateAndEvaluate None) st w = (Ok tt, w')) ->
  item (vz.metric_information (problem_statement baseline_state)) = Ok metric ->
  (forall st w, exists trials w', GetTrials st w = (Ok trials, w')) ->
  (forall trials w, exists curve w', convert metric trials w = (Ok curve, w')) ->
  let runner := efficiency_runner self in
  let cycles st := replicate (Z.to_nat (num_trials self))
                     (EvSubroutine (GenerateAndEvaluate None) st) in
  exists baseline_curve candidate_curve s',
    efficiency_repeat runner candidate_state_factory baseline_state_factory
      (baseline_curves, candidate_curves) s
    = (Ok (baseline_curves ++ [baseline_curve],
           candidate_curves ++ [candidate_curve]), s')
    /\ Eff.trace s'
       = Eff.trace s
         ++ [EvFactory baseline_state_factory; EvFactory candidate_state_factory]
         ++ EvRun runner baseline_state :: cycles baseline_state
         ++ EvRun runner candidate_state :: cycles candidate_state.
Proof.
  intros Hbf Hcf Hsingle Hsame Hsub Hitem Htrials Hconv runner cycles.
  destruct (efficiency_repeat_trace self candidate_state_factory
              baseline_state_factory baseline_curves candidate_curves s
              baseline_state candidate_state w1 w2 metric
              Hbf Hcf Hsingle Hsame Hsub Hitem Htrials Hconv)
    as (bc & cc & s' & Hrun & Htr).
  exists bc, cc, s'. split; [exact Hrun | exact Htr].
Qed.

(** ** Fresh benchmark states *)








(** ** Reading the best trial *)

(** After a benchmark run that did not raise, [_run_one] reads its result
    in a fixed order. An empty list of best trials raises [IndexError],
    also when the statement has no single objective; otherwise what
    [single_objective_metric_name] raises is raised; otherwise a best trial
    without final measurement raises [AttributeError] and one whose final
    measurement lacks the objective metric raises [KeyError] with that
    metric's name. *)
Theorem _run_one_reading_errors
  (benchmark_state_factory : BenchmarkStateFactory)
  (num_trials batch_size : Z) (s s3 : state)
  (benchmark_state : BenchmarkState) (w1 w4 : World)
  (best_trials : list vz.Trial) :
  batch_size <> 0 ->
  call_factory benchmark_state_factory (Eff.world s) = (Ok benchmark_state, w1) ->
  run {| benchmark_subroutines := [GenerateAndEvaluate (Some batch_size)];
         runner_num_repeats := num_trials `div` batch_size |} benchmark_state
      (Eff.State w1 (Eff.trace s ++ [EvFactory benchmark_state_factory]))
  = (Ok tt, s3) ->
  GetBestTrials benchmark_state 1 (Eff.world s3) = (Ok best_trials, w4) ->
  let outcome := _run_one benchmark_state_factory num_trials batch_size s in
  let s4 := Eff.State w4 (Eff.trace s3) in
  (best_trials = [] -> outcome = (Raise IndexError, s4))
  /\ (forall t rest e, best_trials = t :: rest ->
         single_objective_metric_name (problem_statement benchmark_state)
         = Raise e ->
         outcome = (Raise e, s4))
  /\ (forall t rest metric_name, best_trials = t :: rest ->
         single_objective_metric_name (problem_statement benchmark_state)
         = Ok metric_name ->
         (vz.final_measurement t = None ->
          outcome = (Raise AttributeError, s4))
         /\ (forall m, vz.final_measurement t = Some m ->
               vz.metrics m !! metric_name = None ->
               outcome = (Raise (KeyError metric_name), s4))
         /\ (forall m metric, vz.final_measurement t = Some m ->
               vz.metrics m !! metric_name = Some metric ->
               outcome = (Ok (vz.value metric), s4))).
Proof.
  intros Hb Hf Hrun Hget outcome s4.
  assert (Heq : outcome =
    (match first_trial best_trials with
     | Ok t =>
         match single_objective_metric_name (problem_statement benchmark_state)
         with
         | Ok metric_name => trial_metric metric_name t
         | Raise e => Raise e
         end
     | Raise e => Raise e
     end, s4)).
  { unfold outcome, _run_one. unfold_eff.
    rewrite (Eff.bind_ok _ _ _ _ _ (call_ok _ s _ _ Hf)).
    unfold floordiv. rewrite decide_False by exact Hb.
    unfold Eff.bind at 1. unfold Eff.lift at 1.
    rewrite (Eff.bind_ok _ _ _ _ _ Hrun).
    unfold Eff.bind, Eff.ext, Eff.lift. rewrite Hget.
    destruct (first_trial best_trials); [| reflexivity].
    destruct (single_objective_metric_name _); reflexivity. }
  rewrite Heq. clear Heq. split; [| split].
  - intros ->. reflexivity.
  - intros t rest e -> Hname. simpl. rewrite Hname. reflexivity.
  - intros t rest metric_name -> Hname. simpl. rewrite Hname.
    unfold trial_metric. split; [| split].
    + intros ->. reflexivity.
    + intros m -> ->. reflexivity.
    + intros m metric -> ->. reflexivity.
Qed.

(** ** The efficiency test with collaborators that do not raise *)







(** ** No repeats at all *)

Lemma verdict_trace_starts_with_t_test (self : SimpleRegretComparisonTester)
  (b c : list float) (s : state) :
  exists r s' tail,
    verdict_of_samples self (b, c) s = (r, s')
    /\ Eff.trace s' = Eff.trace s ++ EvTTest b c :: tail.
Proof.
  unfold verdict_of_samples, t_test. unfold_eff.
  unfold Eff.bind, Eff.emit, Eff.ext. simpl.
  destruct (t_test_less_mean_score b c (Eff.world s)) as [[p | e] w].
  - destruct (PyFloat.le p (alpha self)).
    + eexists _, _, [_]. split; [reflexivity |]. simpl.
      rewrite <- app_assoc. reflexivity.
    + eexists _, _, []. split; reflexivity.
  - eexists _, _, []. split; reflexivity.
Qed.

(** With both repeat counts at most 0 (negative counts act as 0) neither
    entry point calls an optimizer or a factory: the sample lists stay
    empty, the state is untouched, and the first thing either entry point
    does is to run the t-test on two empty lists. *)
Theorem no_repeats_empty_samples
  (self : SimpleRegretComparisonTester)
  (converter : TrialToArrayConverter) (score_fn : BatchArrayScoreFunction)
  (baseline_optimizer candidate_optimizer : VectorizedOptimizer)
  (baseline_factory candidate_factory : BenchmarkStateFactory)
  (baseline_batch_size candidate_batch_size : Z) (s : state) :
  baseline_num_repeats self <= 0 -> candidate_num_repeats self <= 0 ->
  optimizer_simple_regrets self converter score_fn baseline_optimizer
    candidate_optimizer s = (Ok ([], []), s)
  /\ benchmark_simple_regrets self baseline_factory candidate_factory
       baseline_batch_size candidate_batch_size s = (Ok ([], []), s)
  /\ (exists r s' tail,
        assert_optimizer_better_simple_regret self converter score_fn
          baseline_optimizer candidate_optimizer s = (r, s')
        /\ Eff.trace s' = Eff.trace s ++ EvTTest [] [] :: tail)
  /\ (exists r s' tail,
        assert_benchmark_state_better_simple_regret self baseline_factory
          candidate_factory baseline_batch_size candidate_batch_size s
        = (r, s')
        /\ Eff.trace s' = Eff.trace s ++ EvTTest [] [] :: tail).
Proof.
  intros Hb Hc.
  assert (Hopt : optimizer_simple_regrets self converter score_fn
                   baseline_optimizer candidate_optimizer s = (Ok ([], []), s)).
  { unfold optimizer_simple_regrets. unfold_eff. unfold Eff.bind.
    rewrite !EffFacts.for_range_nonpos by assumption. reflexivity. }
  assert (Hbench : benchmark_simple_regrets self baseline_factory
                     candidate_factory baseline_batch_size
                     candidate_batch_size s = (Ok ([], []), s)).
  { unfold benchmark_simple_regrets. unfold_eff. unfold Eff.bind.
    rewrite !EffFacts.for_range_nonpos by assumption. reflexivity. }
  split; [exact Hopt |]. split; [exact Hbench |]. split.
  - rewrite assert_optimizer_better_simple_regret_eq.
    rewrite (Eff.bind_ok _ _ _ _ _ Hopt).
    apply verdict_trace_starts_with_t_test.
  - rewrite assert_benchmark_state_better_simple_regret_eq.
    rewrite (Eff.bind_ok _ _ _ _ _ Hbench).
    apply verdict_trace_starts_with_t_test.
Qed.

End MoreTesters.

(** * The datastore test library

    [vizier/service/datastore_test_lib.py]. Of it, [make_random_string] is
    modelled: the state is that of Python's shared random generator. *)

Module DatastoreTestLib.
Section Random.
(** [random._randbelow(n)]: a draw, meant to be below [n], and the
    generator after it. *)
Context {G : Type} (randbelow : nat -> G -> nat * G).

Abbreviation R := (Eff.M G Empty_set).

(** [string.ascii_lowercase] *)
Definition ascii_lowercase : list Ascii.ascii :=
  String.list_ascii_of_string "abcdefghijklmnopqrstuvwxyz".

(** [random.choice(seq)]: [IndexError] on an empty sequence, otherwise
    [seq[randbelow(len(seq))]]. *)
Definition choice {A} (seq : list A) (g : G) : result A * G :=
  match seq with
  | [] => (Raise IndexError, g)
  | _ =>
      let (i, g') := randbelow (length seq) g in
      match seq !! i with
      | Some x => (Ok x, g')
      | None => (Raise IndexError, g')
      end
  end.

(** [''.join(random.choice(string.ascii_lowercase) for _ in range(10))] *)
Definition make_random_string : R string :=
  chars ← Eff.for_range 10
             (fun acc => c ← Eff.ext (choice ascii_lowercase);
                         mret (acc ++ [c])) [];
  mret (String.string_of_list_ascii chars).

Lemma length_string_of_list_ascii (l : list Ascii.ascii) :
  String.length (String.string_of_list_ascii l) = length l.
Proof. induction l as [|c l IH]; simpl; [reflexivity | now rewrite IH]. Qed.

Lemma choice_in {A} (seq : list A) (g : G) :
  seq <> [] ->
  (fst (randbelow (length seq) g) < length seq)%nat ->
  exists x, choice seq g = (Ok x, snd (randbelow (length seq) g)) /\ x ∈ seq.
Proof.
  intros Hne Hlt. unfold choice. destruct seq as [|y seq]; [contradiction |].
  destruct (randbelow (length (y :: seq)) g) as [i g'] eqn:Hdraw.
  simpl in Hlt.
  destruct (lookup_lt_is_Some_2 (y :: seq) i Hlt) as [x Hx].
  exists x. rewrite Hx. split; [reflexivity |].
  eapply list_elem_of_lookup_2. exact Hx.
Qed.

(** As long as the generator keeps its draws below the bound it is given,
    [make_random_string] returns a string of exactly ten characters, each
    of them a lowercase ASCII letter. *)
Theorem make_random_string_shape (s : Eff.state G Empty_set) :
  (forall n g, (0 < n)%nat -> (fst (randbelow n g) < n)%nat) ->
  exists str s',
    make_random_string s = (Ok str, s')
    /\ String.length str = 10%nat
    /\ Forall (fun c => c ∈ ascii_lowercase) (String.list_ascii_of_string str).
Proof.
  intros Hbelow.
  destruct (EffFacts.iterate_total
    (fun k (acc : list Ascii.ascii) (_ : Eff.state G Empty_set) =>
       length acc = k /\ Forall (fun c => c ∈ ascii_lowercase) acc)
    (fun acc => c ← Eff.ext (choice ascii_lowercase);
                (mret (acc ++ [c]) : R (list Ascii.ascii))))
    with (n := 10%nat) (k := O) (acc := @nil Ascii.ascii) (s := s)
    as (chars & s' & Hrun & Hlen & Hall).
  - intros k acc s0 [Hlen Hall].
    destruct (choice_in ascii_lowercase (Eff.world s0)) as (c & Hc & Hin).
    + discriminate.
    + apply Hbelow. simpl. lia.
    + eexists (acc ++ [c]), _. split.
      * unfold_eff. unfold Eff.bind, Eff.ext, Eff.ret. rewrite Hc. reflexivity.
      * rewrite length_app. simpl. split; [lia |].
        apply Forall_app. split; [exact Hall |]. constructor; [exact Hin | constructor].
  - split; [reflexivity | constructor].
  - exists (String.string_of_list_ascii chars), s'. split.
    + unfold make_random_string, Eff.for_range. unfold_eff.
      change (Z.to_nat 10) with 10%nat.
      rewrite (Eff.bind_ok _ _ _ _ _ Hrun). reflexivity.
    + rewrite length_string_of_list_ascii.
      rewrite String.list_ascii_of_string_of_list_ascii. split; assumption.
Qed.

End Random.

(** A generator for examples: the state is a counter, a draw is the counter
    reduced modulo the bound. *)
Definition counter_randbelow (n : nat) (g : nat) : nat * nat :=
  (g mod n, S g)%nat.

Lemma make_random_string_shape_witness :
  exists s',
    make_random_string counter_randbelow (Eff.State 0%nat [])
    = (Ok "abcdefghij", s').
Proof.
  destruct (make_random_string_shape counter_randbelow (Eff.State 0%nat []))
    as (str & s' & Hrun & _ & _).
  - intros n g Hn. simpl. apply Nat.mod_upper_bound. lia.
  - exists s'. rewrite Hrun. f_equal. f_equal.
    assert (Hfst : fst (make_random_string counter_randbelow
                          (Eff.State 0%nat [])) = Ok "abcdefghij")
      by (vm_compute; reflexivity).
    rewrite Hrun in Hfst. simpl in Hfst. congruence.
Defined.

End DatastoreTestLib.

(** * The further properties on small worlds *)

Module ToyMore.
Import Toy.

(** A world in which no collaborator raises, whatever it is given; what the
    optimizers return and the p-value of the significance test are left
    open. *)
Definition world_with
  (optimizer_result : float -> list vz.Trial)
  (significance : list float -> list float -> float) : Collaborators := {|
  World := nat;
  SearchSpace := unit;
  BenchmarkState := nat;
  BenchmarkStateFactory := nat;
  ConvergenceCurve := float;
  ConvergenceCurveComparator := float;
  VectorizedOptimizer := float;
  TrialToArrayConverter := unit;
  BatchArrayScoreFunction := unit;
  call_factory := fun f => of_result (Ok f);
  problem_statement := fun _ => statement 0;
  subroutine_run := fun _ _ => of_result (Ok tt);
  GetTrials := fun st => of_result (Ok [trial_with "obj" (best_of st)]);
  GetBestTrials := fun st _ => of_result (Ok [trial_with "obj" (best_of st)]);
  item := fun _ => Ok {| vz.name := "obj"; vz.goal := vz.MAXIMIZE |};
  single_objective_metric_name := fun _ => Ok "obj";
  convert := fun _ trials => of_result (Ok (float_of_nat (length trials)));
  align_xs := fun curves => of_result (Ok (mean curves));
  new_comparator := fun curve => of_result (Ok curve);
  get_log_efficiency_score := fun baseline candidate =>
    of_result (Ok (candidate - baseline)%float);
  optimize := fun optimizer _ _ _ _ => of_result (Ok (optimizer_result optimizer));
  t_test_less_mean_score := fun b c => of_result (Ok (significance b c));
  np_mean := mean;
  np_std := std;
  str_float := fun x => if PrimFloat.is_nan x then "nan" else "<float>";
  repr_float := fun x => if PrimFloat.is_nan x then "nan" else "<float>";
  str_factory := fun f => "factory-" +:+ pretty f;
  str_statement := fun ps => "statement"
|}.

Definition calm : Collaborators :=
  world_with (fun o => [trial_with "acquisition" o]) p_value.

(** The significance test answers NaN. *)
Definition undecided : Collaborators :=
  world_with (fun o => [trial_with "acquisition" o])
    (fun _ _ => PrimFloat.nan).

(** The optimizers return no trial. *)
Definition barren : Collaborators := world_with (fun _ => []) p_value.

Definition calm_start : Eff.state nat (@event calm) := Eff.State 0%nat [].
Definition undecided_start : Eff.state nat (@event undecided) :=
  Eff.State 0%nat [].
Definition barren_start : Eff.state nat (@event barren) := Eff.State 0%nat [].

(** Candidate 0 against baseline 1 scores -4; against a NaN threshold the
    test passes all the same. *)
Lemma nan_score_passes_witness :
  assert_better_efficiency tester 0%nat 1%nat PrimFloat.nan start
  = (Ok tt, snd (log_efficiency_score_of_runs tester 0%nat 1%nat start)).
Proof.
  apply (@nan_score_passes collaborators tester 0%nat 1%nat PrimFloat.nan
           (-4)%float start).
  - vm_compute. reflexivity.
  - right. reflexivity.
Defined.

Lemma nan_p_value_fails_witness :
  fst (@assert_optimizer_better_simple_regret undecided regret_tester tt tt
         1%float 5%float undecided_start)
  = Raise (FailedSimpleRegretConvergenceTestError
             (@_generate_summary undecided regret_tester samples_1 samples_5
                PrimFloat.nan)).
Proof.
  destruct (@nan_p_value_fails undecided regret_tester tt tt 1%float 5%float
              0%nat 1%nat 1 1 undecided_start
              (snd (@optimizer_simple_regrets undecided regret_tester tt tt
                      1%float 5%float undecided_start))
              samples_1 samples_5 PrimFloat.nan 11%nat)
    as [Hopt _].
  - reflexivity.
  - reflexivity.
  - rewrite Hopt by (vm_compute; reflexivity). reflexivity.
Defined.

(** Candidate 1 against baseline 0 scores 4: it passes at threshold 1, and
    so at threshold 0. *)
Lemma lower_threshold_still_passes_witness :
  assert_better_efficiency tester 1%nat 0%nat 0%float start
  = (Ok tt, snd (log_efficiency_score_of_runs tester 1%nat 0%nat start)).
Proof.
  apply (@lower_threshold_still_passes collaborators tester 1%nat 0%nat
           1%float 0%float start).
  - vm_compute. reflexivity.
  - reflexivity.
Defined.

Lemma larger_alpha_still_passes_witness :
  exists s1',
    assert_optimizer_better_simple_regret
      (with_alpha regret_tester 0.1%float) tt tt 1%float 5%float start
    = (Ok tt, s1').
Proof.
  destruct (@larger_alpha_still_passes collaborators regret_tester 0.1%float
              tt tt 1%float 5%float 0%nat 1%nat 1 1 start
              (snd (@assert_optimizer_better_simple_regret collaborators
                      regret_tester tt tt 1%float 5%float start)))
    as [Hopt _].
  - reflexivity.
  - destruct Hopt as (s1' & Hrun & _); [vm_compute; reflexivity |].
    exists s1'. exact Hrun.
Defined.

(** No repeats: baseline 2 is multi-metric and candidate 3 differs from it,
    yet neither guard fires; the stand-in [align_xs] refuses the empty
    list. *)
Definition no_repeat_tester : EfficiencyComparisonTester :=
  {| num_trials := 3; num_repeats := 0 |}.

Lemma no_repeats_no_guards_witness :
  assert_better_efficiency no_repeat_tester 3%nat 2%nat 0%float start
  = (Raise (ValueError "no curves"), Eff.State 1%nat []).
Proof.
  destruct (@no_repeats_no_guards collaborators no_repeat_tester 3%nat 2%nat
              0%float start) as (r & w & Hrun & Haligned).
  - simpl. lia.
  - destruct (Haligned (ValueError "no curves") 1%nat) as [-> ->];
      [reflexivity |].
    exact Hrun.
Defined.

Lemma curve_lists_grow_together_witness :
  exists bs cs s',
    Eff.for_range 2 (efficiency_repeat (efficiency_runner tester) 1%nat 0%nat)
      ([], []) start = (Ok (bs, cs), s')
    /\ length bs = 2%nat /\ length cs = 2%nat.
Proof.
  destruct (Eff.for_range 2
              (@efficiency_repeat collaborators (efficiency_runner tester)
                 1%nat 0%nat)
              ([], []) start) as [[[bs cs] | e] s'] eqn:Hrun.
  - exists bs, cs, s'. split; [reflexivity |].
    exact (@curve_lists_grow_together collaborators (efficiency_runner tester)
             1%nat 0%nat 2 start s' bs cs Hrun).
  - vm_compute in Hrun. discriminate.
Defined.

(** Optimizers that return no trial: [IndexError] after one call. *)
Lemma unreadable_first_sample_aborts_witness :
  @assert_optimizer_better_simple_regret barren regret_tester tt tt
    1%float 5%float barren_start
  = (Raise IndexError, Eff.State 1%nat [@EvOptimize barren 1%float 10]).
Proof.
  destruct (@unreadable_first_sample_aborts barren regret_tester tt tt
              1%float 5%float barren_start [] 1%nat IndexError)
    as [Hrun _].
  - simpl. lia.
  - reflexivity.
  - reflexivity.
  - exact Hrun.
Defined.

Lemma zero_batch_size_raises_witness :
  assert_benchmark_state_better_simple_regret regret_tester 0%nat 1%nat 0 1
    start
  = (Raise ZeroDivisionError, Eff.State 1%nat [EvFactory 0%nat]).
Proof.
  apply (@zero_batch_size_raises collaborators regret_tester 0%nat 1%nat 1
           start 0%nat 1%nat).
  - simpl. lia.
  - reflexivity.
Defined.


(** The events of the calm world. *)
Definition built (f : nat) : @event calm := @EvFactory calm f.
Definition ran (st : nat) : @event calm :=
  @EvRun calm (efficiency_runner tester) st.
Definition cycle (st : nat) : @event calm :=
  @EvSubroutine calm (GenerateAndEvaluate None) st.

(** One repeat in the calm world, three cycles per state. *)
Lemma efficiency_repeat_runs_both_witness :
  exists bc cc s',
    @efficiency_repeat calm (efficiency_runner tester) 1%nat 0%nat ([], [])
      calm_start = (Ok ([bc], [cc]), s')
    /\ Eff.trace s'
       = [built 0%nat; built 1%nat;
          ran 0%nat; cycle 0%nat; cycle 0%nat; cycle 0%nat;
          ran 1%nat; cycle 1%nat; cycle 1%nat; cycle 1%nat].
Proof.
  destruct (@efficiency_repeat_runs_both calm tester 1%nat 0%nat [] []
              calm_start 0%nat 1%nat 1%nat 2%nat
              {| vz.name := "obj"; vz.goal := vz.MAXIMIZE |})
    as (bc & cc & s' & Hrun & Htr).
  - reflexivity.
  - reflexivity.
  - simpl. lia.
  - reflexivity.
  - intros st w. exists (S w). reflexivity.
  - reflexivity.
  - intros st w. eexists _, _. reflexivity.
  - intros trials w. eexists _, _. reflexivity.
  - exists bc, cc, s'. split; [exact Hrun | exact Htr].
Defined.



(** State 3 declares the metric "loss"; its best trial carries "obj"
    only. *)
Lemma _run_one_reading_errors_witness :
  fst (_run_one 3%nat 10 3 start) = Raise (KeyError "loss").
Proof.
  destruct (@_run_one_reading_errors collaborators 3%nat 10 3 start
              (snd (@run collaborators
                      {| benchmark_subroutines := [GenerateAndEvaluate (Some 3)];
                         runner_num_repeats := 10 `div` 3 |} 3%nat
                      (Eff.State 1%nat [@EvFactory collaborators 3%nat])))
              3%nat 1%nat 5%nat [trial_with "obj" 1%float])
    as (_ & _ & Hread).
  - lia.
  - reflexivity.
  - vm_compute. reflexivity.
  - reflexivity.
  - destruct (Hread (trial_with "obj" 1%float) [] "loss" eq_refl eq_refl)
      as (_ & Hkey & _).
    rewrite (Hkey {| vz.metrics := {[ "obj" := {| vz.value := 1%float |} ]} |}
               eq_refl eq_refl).
    reflexivity.
Defined.



(** Negative repeat counts: nothing is optimized. *)
Definition negative_repeats : SimpleRegretComparisonTester :=
  {| baseline_num_trials := 10; candidate_num_trials := 10;
     baseline_num_repeats := -2; candidate_num_repeats := -1;
     alpha := default_alpha |}.

Lemma no_repeats_empty_samples_witness :
  optimizer_simple_regrets negative_repeats tt tt 1%float 5%float start
  = (Ok ([], []), start).
Proof.
  destruct (@no_repeats_empty_samples collaborators negative_repeats tt tt
              1%float 5%float 0%nat 1%nat 1 1 start) as (Hopt & _).
  - simpl. lia.
  - simpl. lia.
  - exact Hopt.
Defined.

End ToyMore.

(** * Repeats of the benchmark-state entry point *)





Section BenchmarkRepeats.
Context `{Collaborators}.

Abbreviation M := (Eff.M World event).
Abbreviation state := (Eff.state World event).








End BenchmarkRepeats.

(** ** The repeats on the small worlds *)

Module ToyRepeats.
Import Toy ToyMore.




End ToyRepeats.
